(** * read_db.py: export of the [todos] table to [todos_data.json]

    A shallow embedding of the script [src/read_db.py] and of the parts of
    the Python runtime it calls ([sqlite3], [open], [json.dump], [print]),
    followed by the properties of the export that the specification states.

    The script is a straight line of statements; it is embedded as a
    computation in a state-and-exception monad whose failures carry the
    source line of the statement that raised.  An uncaught exception ends
    the script: no later statement runs.

    The runtime is modelled as far as the script observes it:
    - [sqlite3]: the database file is absent, inaccessible, not a database,
      or a database with named tables; [connect] creates a missing file as an
      empty database and does not read an existing one; [PRAGMA table_info]
      of a missing table returns no rows; [SELECT] from it raises;
      [fetchall] raises on a TEXT cell that is not valid UTF-8;
    - [open(..., 'w', encoding='utf-8')]: truncates at once when the file
      can be opened, and encodes what is written as UTF-8;
    - [json.dump(..., indent=2, ensure_ascii=False)]: the generator
      [_make_iterencode] of [json/encoder.py], chunk by chunk, each chunk
      written as it is yielded.
    What the interpreter does after the script has ended is not part of the
    model, nor are failures of the storage below an open file.  *)

From Stdlib Require Import ZArith NArith String Ascii List PrimFloat DecimalString.
From stdpp Require Import base list option strings.

Local Open Scope N_scope.
Set Warnings "-register-all".
Set Default Proof Using "Type".

(** ** Python values *)

(** A Python [str] is a sequence of Unicode code points. *)
Definition str := list N.

(** An ASCII literal of the source, as a [str]. *)
Definition lit (s : string) : str := map N_of_ascii (list_ascii_of_string s).

Definition NL : str := [10].
Definition QUOTE : str := [34].

(** The Python objects [sqlite3] hands out for the five storage classes:
    [None], [int], [float], [str] and [bytes]. *)
Inductive value :=
| VNull
| VInt (z : Z)
| VReal (f : float)
| VText (s : str)
| VBlob (b : list Byte.byte).

(** The objects the script builds: the values above, lists and dicts.  A
    [dict] keeps its keys in insertion order, so it is an association list;
    every key of this program is a [str]. *)
Inductive pyobj :=
| Scalar (v : value)
| PList (items : list pyobj)
| PDict (items : list (str * pyobj)).

Definition dict := list (str * pyobj).

Definition keys (d : dict) : list str := map fst d.

(** [d[k]], as a lookup. *)
Fixpoint dict_get (d : dict) (k : str) : option pyobj :=
  match d with
  | [] => None
  | (k', v') :: d' => if decide (k = k') then Some v' else dict_get d' k
  end.

(** [d[k] = v]: an existing key keeps its position, a new key goes last. *)
Fixpoint dict_setitem (d : dict) (k : str) (v : pyobj) : dict :=
  match d with
  | [] => [(k, v)]
  | (k', v') :: d' =>
      if decide (k = k') then (k', v) :: d' else (k', v') :: dict_setitem d' k v
  end.

(** [enumerate(l)] *)
Definition enumerate {A} (l : list A) : list (nat * A) := zip (seq 0 (length l)) l.

(** ** Exceptions and the script monad *)

Inductive exn :=
| OperationalError (msg : string)    (* sqlite3.OperationalError *)
| DatabaseError (msg : string)       (* sqlite3.DatabaseError *)
| ProgrammingError (msg : string)    (* sqlite3.ProgrammingError *)
| IndexError
| KeyError
| AttributeError
| TypeError
| UnicodeEncodeError
| OSError.

(** ** UTF-8, as the text layer of [open(..., encoding='utf-8')] encodes *)

Definition byte_of_N (n : N) : Byte.byte := default Byte.x00 (Byte.of_N n).

Definition is_surrogate (c : N) : bool := (0xD800 <=? c) && (c <=? 0xDFFF).

(** One code point; [None] is [UnicodeEncodeError] (a lone surrogate; code
    points above 0x10FFFF do not exist in a [str]). *)
Definition utf8_char (c : N) : option (list Byte.byte) :=
  if c <? 0x80 then Some [byte_of_N c]
  else if c <? 0x800 then
    Some [byte_of_N (N.lor 0xC0 (N.shiftr c 6));
          byte_of_N (N.lor 0x80 (N.land c 0x3F))]
  else if is_surrogate c then None
  else if c <? 0x10000 then
    Some [byte_of_N (N.lor 0xE0 (N.shiftr c 12));
          byte_of_N (N.lor 0x80 (N.land (N.shiftr c 6) 0x3F));
          byte_of_N (N.lor 0x80 (N.land c 0x3F))]
  else if c <? 0x110000 then
    Some [byte_of_N (N.lor 0xF0 (N.shiftr c 18));
          byte_of_N (N.lor 0x80 (N.land (N.shiftr c 12) 0x3F));
          byte_of_N (N.lor 0x80 (N.land (N.shiftr c 6) 0x3F));
          byte_of_N (N.lor 0x80 (N.land c 0x3F))]
  else None.

Fixpoint utf8_encode (s : str) : option (list Byte.byte) :=
  match s with
  | [] => Some []
  | c :: s' =>
      match utf8_char c, utf8_encode s' with
      | Some b, Some bs => Some (b ++ bs)
      | _, _ => None
      end
  end.

(** A code point that a [str] read from SQLite can hold: a Unicode scalar
    value. *)
Definition scalar_value (c : N) : bool := (c <? 0x110000) && negb (is_surrogate c).

(** A [str] that [f.write] can encode. *)
Definition encodable (s : str) : bool := forallb scalar_value s.

(** ** The JSON encoder, [json.encoder] with [indent=2, ensure_ascii=False] *)

Definition hex_digit (n : N) : N := if n <? 10 then 48 + n else 87 + n.

(** [ESCAPE_DCT[c]] for the characters [ESCAPE] matches, [c] itself for all
    others: only the backslash, the double quote and the control characters
    below 0x20 are replaced. *)
Definition escape_char (c : N) : str :=
  if c =? 92 then [92; 92]
  else if c =? 34 then [92; 34]
  else if c =? 8 then [92; 98]
  else if c =? 12 then [92; 102]
  else if c =? 10 then [92; 110]
  else if c =? 13 then [92; 114]
  else if c =? 9 then [92; 116]
  else if c <? 32 then [92; 117; 48; 48; hex_digit (c / 16); hex_digit (c mod 16)]
  else [c].

(** [py_encode_basestring] *)
Definition encode_basestring (s : str) : str :=
  QUOTE ++ concat (map escape_char s) ++ QUOTE.

(** [int.__repr__] *)
Definition intstr (z : Z) : str := lit (NilZero.string_of_int (Z.to_int z)).

(** [_indent * level], with [_indent = ' ' * 2] *)
Definition indent_str (level : nat) : str := concat (replicate level (lit "  ")).

(** What a generator has yielded, and the exception that ended it, if any. *)
Definition gen := (list str * option exn)%type.

Definition yield (s : str) : gen := ([s], None).
Definition gen_done : gen := ([], None).
Definition gen_raise (e : exn) : gen := ([], Some e).

Definition gen_seq (g1 g2 : gen) : gen :=
  match g1 with
  | (c1, Some e) => (c1, Some e)
  | (c1, None) => (c1 ++ g2.1, g2.2)
  end.

Infix ";;;" := gen_seq (at level 62, right associativity).

Section Encoder.

(** [float.__repr__] on finite floats: the shortest decimal string that
    reads back as the same float.  It is kept abstract. *)
Variable float_repr : float → str.

(** [floatstr] *)
Definition floatstr (o : float) : str :=
  if PrimFloat.is_nan o then lit "NaN"
  else if PrimFloat.eqb o PrimFloat.infinity then lit "Infinity"
  else if PrimFloat.eqb o PrimFloat.neg_infinity then lit "-Infinity"
  else float_repr o.

(** The [isinstance] chain on a value that is neither a list nor a dict:
    its text, or [None] when the encoder falls through to [_default],
    which raises [TypeError]. *)
Definition atom_text (v : value) : option str :=
  match v with
  | VText s => Some (encode_basestring s)
  | VNull => Some (lit "null")
  | VInt z => Some (intstr z)
  | VReal f => Some (floatstr f)
  | VBlob _ => None
  end.

Section Bodies.

(** [_iterencode], for the calls the two loops below make on an item. *)
Variable iterencode_rec : pyobj → nat → gen.

(** The [for value in lst] loop of [_iterencode_list]. *)
Fixpoint list_loop (lst : list pyobj) (buf separator : str)
    (level : nat) : gen :=
  match lst with
  | [] => gen_done
  | value :: rest =>
      match value with
      | Scalar v =>
          match atom_text v with
          | Some t => yield (buf ++ t)
          | None => yield buf ;;; iterencode_rec value level
          end
      | _ => yield buf ;;; iterencode_rec value level
      end ;;; list_loop rest separator separator level
  end.

Definition iterencode_list (lst : list pyobj) (level : nat) : gen :=
  match lst with
  | [] => yield (lit "[]")
  | _ =>
      let level' := S level in
      let newline_indent := NL ++ indent_str level' in
      let separator := lit "," ++ newline_indent in
      list_loop lst (lit "[" ++ newline_indent) separator level' ;;;
      yield (NL ++ indent_str level) ;;;
      yield (lit "]")
  end.

(** The [for key, value in items] loop of [_iterencode_dict]. *)
Fixpoint dict_loop (items : list (str * pyobj)) (first : bool)
    (item_separator : str) (level : nat) : gen :=
  match items with
  | [] => gen_done
  | (key, value) :: rest =>
      (if first then gen_done else yield item_separator) ;;;
      yield (encode_basestring key) ;;;
      yield (lit ": ") ;;;
      match value with
      | Scalar v =>
          match atom_text v with
          | Some t => yield t
          | None => iterencode_rec value level
          end
      | _ => iterencode_rec value level
      end ;;; dict_loop rest false item_separator level
  end.

Definition iterencode_dict (dct : list (str * pyobj)) (level : nat) : gen :=
  match dct with
  | [] => yield (lit "{}")
  | _ =>
      let level' := S level in
      let newline_indent := NL ++ indent_str level' in
      let item_separator := lit "," ++ newline_indent in
      yield (lit "{") ;;;
      yield newline_indent ;;;
      dict_loop dct true item_separator level' ;;;
      yield (NL ++ indent_str level) ;;;
      yield (lit "}")
  end.

End Bodies.

(** [_iterencode(o, _current_indent_level)] *)
Fixpoint iterencode (o : pyobj) (level : nat) {struct o} : gen :=
  match o with
  | Scalar v =>
      match atom_text v with
      | Some t => yield t
      | None => gen_raise TypeError
      end
  | PList lst => iterencode_list iterencode lst level
  | PDict dct => iterencode_dict iterencode dct level
  end.

End Encoder.

(** ** The world the script runs in *)

(** A row of [PRAGMA table_info]: the tuple
    [(cid, name, type, notnull, dflt_value, pk)]. *)
Record column_info := ColumnInfo {
  ci_cid : Z;
  ci_name : str;
  ci_type : str;
  ci_notnull : Z;
  ci_dflt_value : value;
  ci_pk : Z
}.

(** [row[1]] on such a tuple. *)
Definition info_1 (row : column_info) : str := ci_name row.

(** A table: its declared columns, in declaration order, and its rows, in
    the order the storage engine returns them, each cell as the Python value
    [sqlite3] converts it to. *)
Record table := Table {
  tbl_columns : list column_info;
  tbl_rows : list (list value)
}.

(** What is at the path ['todos.db']. *)
Inductive db_file :=
| Absent                                       (* no file; it can be created *)
| Inaccessible                                 (* cannot be opened or created *)
| NotADatabase                                 (* a file that is not a database *)
| Database (tables : list (string * table))
| UndecodableRows (tables : list (string * table)).
    (* a database with these tables in which a TEXT cell of a row of
       [todos] holds bytes that are not valid UTF-8: its rows cannot be
       handed out as Python values *)

Inductive connection := NoConnection | ConnOpen | ConnClosed.

(** The result set a cursor holds after [execute]. *)
Inductive result_set :=
| NoResult
| InfoRows (rows : list column_info)
| DataRows (rows : list (list value))
| UndecodedRows.       (* rows of which a TEXT cell does not decode *)

(** The two SQL texts of the script. *)
Inductive query :=
| PragmaTableInfo (t : string)     (* 'PRAGMA table_info(t)' *)
| SelectAll (t : string).          (* 'SELECT * FROM t' *)

Record state := State {
  db : db_file;                          (* the file 'todos.db' *)
  out_file : option (list Byte.byte);    (* the file 'todos_data.json' *)
  out_writable : bool;                   (* can that file be opened for writing *)
  conn : connection;                     (* [conn] *)
  cursor : result_set;                   (* [cursor] *)
  f_open : bool;                         (* is the handle [f] open *)
  stdout : list str                      (* lines printed *)
}.

Definition set_db (d : db_file) (s : state) : state :=
  State d (out_file s) (out_writable s) (conn s) (cursor s) (f_open s) (stdout s).
Definition set_out_file (o : option (list Byte.byte)) (s : state) : state :=
  State (db s) o (out_writable s) (conn s) (cursor s) (f_open s) (stdout s).
Definition set_conn (c : connection) (s : state) : state :=
  State (db s) (out_file s) (out_writable s) c (cursor s) (f_open s) (stdout s).
Definition set_cursor (r : result_set) (s : state) : state :=
  State (db s) (out_file s) (out_writable s) (conn s) r (f_open s) (stdout s).
Definition set_f_open (b : bool) (s : state) : state :=
  State (db s) (out_file s) (out_writable s) (conn s) (cursor s) b (stdout s).
Definition set_stdout (l : list str) (s : state) : state :=
  State (db s) (out_file s) (out_writable s) (conn s) (cursor s) (f_open s) l.

(** The state in which the interpreter starts the script. *)
Definition start (d : db_file) (o : option (list Byte.byte)) (w : bool) : state :=
  State d o w NoConnection NoResult false [].

(** ** The script monad *)

(** A library call: a new state and a value or an exception. *)
Definition P (A : Type) := state → state * (exn + A).

(** A run of statements: a new state and a value, or the uncaught exception
    with the source line of the statement that raised it. *)
Inductive outcome (A : Type) :=
| Returned (a : A)
| Raised (line : nat) (e : exn).
Arguments Returned {A} a.
Arguments Raised {A} line e.

Definition M (A : Type) := state → state * outcome A.

Definition ret {A} (a : A) : M A := λ s, (s, Returned a).

Definition bind {A B} (m : M A) (k : A → M B) : M B :=
  λ s, match m s with
       | (s', Returned a) => k a s'
       | (s', Raised l e) => (s', Raised l e)
       end.

#[global] Instance M_ret : MRet M := @ret.
#[global] Instance M_bind : MBind M := λ A B k m, bind m k.

Definition at_line {A} (line : nat) (p : P A) : M A :=
  λ s, match p s with
       | (s', inr a) => (s', Returned a)
       | (s', inl e) => (s', Raised line e)
       end.

(** An expression that touches no state. *)
Definition pure {A} (r : exn + A) : P A := λ s, (s, r).

(** ** [sqlite3] *)

Fixpoint find_table (t : string) (tables : list (string * table)) : option table :=
  match tables with
  | [] => None
  | (t', tb) :: rest => if String.eqb t t' then Some tb else find_table t rest
  end.

(** [sqlite3.connect(path)]: a missing file is created as an empty database;
    the content of an existing file is not read yet. *)
Definition sqlite3_connect : P unit :=
  λ s, match db s with
       | Inaccessible => (s, inl (OperationalError "unable to open database file"))
       | Absent => (set_conn ConnOpen (set_db (Database []) s), inr ())
       | _ => (set_conn ConnOpen s, inr ())
       end.

(** [conn.cursor()] *)
Definition conn_cursor : P unit := λ s, (set_cursor NoResult s, inr ()).

(** The result set of [SELECT * FROM t] on the table [tb] of the database
    [d]. *)
Definition select_result (d : db_file) (tb : table) : result_set :=
  match d with
  | UndecodableRows _ => UndecodedRows
  | _ => DataRows (tbl_rows tb)
  end.

(** [cursor.execute(sql)].  [PRAGMA table_info] of a table that does not
    exist yields no rows; [SELECT] from it is an error. *)
Definition cursor_execute (q : query) : P unit :=
  λ s, match conn s with
       | ConnOpen =>
           match db s with
           | Database tables | UndecodableRows tables =>
               match q with
               | PragmaTableInfo t =>
                   match find_table t tables with
                   | Some tb => (set_cursor (InfoRows (tbl_columns tb)) s, inr ())
                   | None => (set_cursor (InfoRows []) s, inr ())
                   end
               | SelectAll t =>
                   match find_table t tables with
                   | Some tb => (set_cursor (select_result (db s) tb) s, inr ())
                   | None => (s, inl (OperationalError ("no such table: " +:+ t)))
                   end
               end
           | NotADatabase => (s, inl (DatabaseError "file is not a database"))
           | _ => (s, inl (OperationalError "unable to open database file"))
           end
       | _ => (s, inl (ProgrammingError "Cannot operate on a closed database."))
       end.

(** [cursor.fetchall()] after [PRAGMA table_info] *)
Definition fetchall_info : P (list column_info) :=
  λ s, match cursor s with
       | InfoRows rows => (set_cursor NoResult s, inr rows)
       | _ => (s, inr [])
       end.

(** [cursor.fetchall()] after [SELECT]: every cell is converted to a Python
    value; a TEXT cell that is not valid UTF-8 raises. *)
Definition fetchall_rows : P (list (list value)) :=
  λ s, match cursor s with
       | DataRows rows => (set_cursor NoResult s, inr rows)
       | UndecodedRows =>
           (set_cursor NoResult s,
            inl (OperationalError "Could not decode to UTF-8 column"))
       | _ => (s, inr [])
       end.

(** [conn.close()] *)
Definition conn_close : P unit := λ s, (set_conn ConnClosed s, inr ()).

(** ** Files and the console *)

(** [open('todos_data.json', 'w', encoding='utf-8')]: the file is created or
    truncated at once. *)
Definition open_w : P unit :=
  λ s, if out_writable s
       then (set_f_open true (set_out_file (Some []) s), inr ())
       else (s, inl OSError).

(** [f.write(chunk)]: the chunk is encoded as a whole and appended.  (The
    bytes reach the disk when the handle is flushed, at the latest when it
    is closed; the model appends them at once.) *)
Definition f_write (chunk : str) : P unit :=
  λ s, match utf8_encode chunk with
       | Some b => (set_out_file (Some (default [] (out_file s) ++ b)) s, inr ())
       | None => (s, inl UnicodeEncodeError)
       end.

(** [f.close()] *)
Definition f_close (s : state) : state := set_f_open false s.

(** [print(msg)] *)
Definition print (msg : str) : P unit := λ s, (set_stdout (stdout s ++ [msg]) s, inr ()).

(** [for chunk in iterable: fp.write(chunk)], on the chunks yielded before
    the generator ended with [err]. *)
Fixpoint write_chunks (chunks : list str) (err : option exn) : P unit :=
  match chunks with
  | [] => λ s, (s, match err with Some e => inl e | None => inr () end)
  | chunk :: rest =>
      λ s, match f_write chunk s with
           | (s', inr _) => write_chunks rest err s'
           | (s', inl e) => (s', inl e)
           end
  end.

(** [with open(...) as f: body], with the [open] on line [line]: the handle
    is closed when the body returns and when it raises. *)
Definition with_open (line : nat) (body : M unit) : M unit :=
  λ s, match at_line line open_w s with
       | (s1, Returned _) => let '(s2, r) := body s1 in (f_close s2, r)
       | (s1, Raised l e) => (s1, Raised l e)
       end.

(** ** The script *)

(** The loop of lines 25 and 26,
    [for i, col in enumerate(columns): item[col] = row[i]];
    [row[i]] raises [IndexError] past the end of the row. *)
Fixpoint fill_item (cols : list (nat * str)) (row : list value) (item : dict)
    : exn + dict :=
  match cols with
  | [] => inr item
  | (i, col) :: rest =>
      match row !! i with
      | Some v => fill_item rest row (dict_setitem item col (Scalar v))
      | None => inl IndexError
      end
  end.

(** Line 27, [result["data"].append(item)]: the list object held under
    ["data"] grows in place. *)
Definition data_append (result item : dict) : exn + dict :=
  match dict_get result (lit "data") with
  | Some (PList l) => inr (dict_setitem result (lit "data") (PList (l ++ [PDict item])))
  | Some _ => inl AttributeError
  | None => inl KeyError
  end.

(** Lines 23 to 27, [for row in rows: ...] *)
Fixpoint for_rows (columns : list str) (rows : list (list value)) (result : dict)
    : M dict :=
  match rows with
  | [] => mret result
  | row :: rest =>
      (* item = {}; for i, col in enumerate(columns): item[col] = row[i] *)
      item ← at_line 26 (pure (fill_item (enumerate columns) row []));
      (* result["data"].append(item) *)
      result ← at_line 27 (pure (data_append result item));
      for_rows columns rest result
  end.

(** Lines 16 to 21, the dict display bound to [result]. *)
Definition initial_result (columns : list str) (rows : list (list value)) : dict :=
  [ (lit "table", Scalar (VText (lit "todos")));
    (lit "columns", PList (map (λ c, Scalar (VText c)) columns));
    (lit "row_count", Scalar (VInt (Z.of_nat (length rows))));
    (lit "data", PList []) ].

(** Lines 4 to 27: connect, read the columns and the rows, build [result]. *)
Definition assemble : M dict :=
  (* conn = sqlite3.connect('todos.db') *)
  at_line 4 sqlite3_connect;;
  (* cursor = conn.cursor() *)
  at_line 5 conn_cursor;;
  (* cursor.execute('PRAGMA table_info(todos)') *)
  at_line 8 (cursor_execute (PragmaTableInfo "todos"));;
  (* columns = [row[1] for row in cursor.fetchall()] *)
  infos ← at_line 9 fetchall_info;
  let columns := map info_1 infos in
  (* cursor.execute('SELECT * FROM todos') *)
  at_line 12 (cursor_execute (SelectAll "todos"));;
  (* rows = cursor.fetchall() *)
  rows ← at_line 13 fetchall_rows;
  (* result = {...}; for row in rows: ... *)
  for_rows columns rows (initial_result columns rows).

Section Script.

Variable float_repr : float → str.

(** [json.dump(obj, f, indent=2, ensure_ascii=False)] *)
Definition json_dump (obj : pyobj) : P unit :=
  let '(chunks, err) := iterencode float_repr obj 0 in
  write_chunks chunks err.

(** Lines 29 to 33: write [result], report, close the connection. *)
Definition emit (result : dict) : M unit :=
  (* with open('todos_data.json', 'w', encoding='utf-8') as f:
         json.dump(result, f, indent=2, ensure_ascii=False) *)
  with_open 29 (at_line 30 (json_dump (PDict result)));;
  (* print("Data saved to todos_data.json") *)
  at_line 32 (print (lit "Data saved to todos_data.json"));;
  (* conn.close() *)
  at_line 33 conn_close.

(** The whole script. *)
Definition read_db : M unit :=
  result ← assemble;
  emit result.

(** The script run from a fresh interpreter. *)
Definition run (d : db_file) (o : option (list Byte.byte)) (w : bool)
    : state * outcome unit :=
  read_db (start d o w).

End Script.

(** The text of a generator that ran to its end. *)
Definition text_of (g : gen) : str := concat g.1.

(** The scenario of the specification. *)
Definition todos_columns : list column_info :=
  [ ColumnInfo 0 (lit "id") (lit "INTEGER") 0 VNull 0;
    ColumnInfo 1 (lit "title") (lit "TEXT") 0 VNull 0;
    ColumnInfo 2 (lit "done") (lit "INTEGER") 0 VNull 0 ].

Definition todos_rows : list (list value) :=
  [ [VInt 1; VText (lit "Buy milk"); VInt 0];
    [VInt 2; VText (lit "Pay bills"); VInt 1] ].

Definition todos_db : db_file := Database [("todos"%string, Table todos_columns todos_rows)].

(** A stand-in for [float.__repr__] where a closed run is evaluated on data
    that holds no float. *)
Definition any_repr (f : float) : str := lit "0.0".

(** ** The steps of the specification *)

Inductive step :=
| AcquireConnection
| ReadColumnMetadata
| ReadRows
| AssembleDocument
| Transform
| SerializeAndWrite
| Report
| ReleaseConnection.

(** The step a source line belongs to. *)
Definition step_of_line (line : nat) : step :=
  if (line <=? 5)%nat then AcquireConnection
  else if (line <=? 9)%nat then ReadColumnMetadata
  else if (line <=? 13)%nat then ReadRows
  else if (line <=? 21)%nat then AssembleDocument
  else if (line <=? 27)%nat then Transform
  else if (line <=? 30)%nat then SerializeAndWrite
  else if (line <=? 32)%nat then Report
  else ReleaseConnection.

(** ** The document, described *)

(** The dict [result] with the given columns, row count and records. *)
Definition document (columns : list str) (n : Z) (data : list pyobj) : dict :=
  [ (lit "table", Scalar (VText (lit "todos")));
    (lit "columns", PList (map (λ c, Scalar (VText c)) columns));
    (lit "row_count", Scalar (VInt n));
    (lit "data", PList data) ].

(** The records of the rows, as the two loops build them, or the first
    exception. *)
Fixpoint records_of (columns : list str) (rows : list (list value))
    : exn + list dict :=
  match rows with
  | [] => inr []
  | row :: rest =>
      match fill_item (enumerate columns) row [] with
      | inl e => inl e
      | inr item =>
          match records_of columns rest with
          | inl e => inl e
          | inr items => inr (item :: items)
          end
      end
  end.

(** Does a value that the encoder rejects occur in the object. *)
Fixpoint has_blob (o : pyobj) : bool :=
  match o with
  | Scalar (VBlob _) => true
  | Scalar _ => false
  | PList l => existsb has_blob l
  | PDict d => existsb (λ kv, has_blob kv.2) d
  end.

(** ** Indented text, described

    The layout the specification asks for: every item of a non-empty list
    or dict on a line of its own, indented by two spaces per nesting level,
    items separated by a comma, a key and its value by a colon and a space,
    the closing bracket on a line of its own at the level of the opening
    one. *)

Definition join (sep : str) (items : list str) : str :=
  match items with
  | [] => []
  | x :: rest => x ++ concat (map (λ y, sep ++ y) rest)
  end.

Definition block (opening closing : str) (level : nat) (items : list str) : str :=
  match items with
  | [] => opening ++ closing
  | _ =>
      opening ++ NL ++ indent_str (S level) ++
      join (lit "," ++ NL ++ indent_str (S level)) items ++
      NL ++ indent_str level ++ closing
  end.

Section Pretty.

Variable float_repr : float → str.

Fixpoint pretty (o : pyobj) (level : nat) {struct o} : str :=
  match o with
  | Scalar v => default [] (atom_text float_repr v)
  | PList l => block (lit "[") (lit "]") level (map (λ x, pretty x (S level)) l)
  | PDict d =>
      block (lit "{") (lit "}") level
        (map (λ kv, encode_basestring kv.1 ++ lit ": " ++ pretty kv.2 (S level)) d)
  end.

(** The text of the whole document. *)
Definition document_text (columns : list str) (n : Z) (data : list pyobj) : str :=
  lit "{" ++ NL ++
  lit "  " ++ encode_basestring (lit "table") ++ lit ": " ++
    encode_basestring (lit "todos") ++ lit "," ++ NL ++
  lit "  " ++ encode_basestring (lit "columns") ++ lit ": " ++
    pretty (PList (map (λ c, Scalar (VText c)) columns)) 1 ++ lit "," ++ NL ++
  lit "  " ++ encode_basestring (lit "row_count") ++ lit ": " ++
    intstr n ++ lit "," ++ NL ++
  lit "  " ++ encode_basestring (lit "data") ++ lit ": " ++
    pretty (PList data) 1 ++ NL ++
  lit "}".

End Pretty.

(** ** The script, described

    What the two halves of the script come to, as functions of the
    environment alone. *)

(** The bytes [write_chunks] appends, and the encoding error that stops it,
    if any. *)
Fixpoint encode_chunks (chunks : list str) : list Byte.byte * option exn :=
  match chunks with
  | [] => ([], None)
  | chunk :: rest =>
      match utf8_encode chunk with
      | Some b => let '(bs, e) := encode_chunks rest in (b ++ bs, e)
      | None => ([], Some UnicodeEncodeError)
      end
  end.

(** Lines 4 to 27 on the database file [d]: the file afterwards, the
    connection, and the document or the failure. *)
Definition assemble_result (d : db_file) : db_file * connection * outcome dict :=
  match d with
  | Inaccessible =>
      (Inaccessible, NoConnection,
       Raised 4 (OperationalError "unable to open database file"))
  | NotADatabase =>
      (NotADatabase, ConnOpen, Raised 8 (DatabaseError "file is not a database"))
  | Absent =>
      (Database [], ConnOpen, Raised 12 (OperationalError "no such table: todos"))
  | Database tables =>
      (Database tables, ConnOpen,
       match find_table "todos" tables with
       | None => Raised 12 (OperationalError "no such table: todos")
       | Some tb =>
           let columns := map info_1 (tbl_columns tb) in
           match records_of columns (tbl_rows tb) with
           | inl e => Raised 26 e
           | inr items =>
               Returned (document columns (Z.of_nat (length (tbl_rows tb)))
                           (map PDict items))
           end
       end)
  | UndecodableRows tables =>
      (UndecodableRows tables, ConnOpen,
       match find_table "todos" tables with
       | None => Raised 12 (OperationalError "no such table: todos")
       | Some _ => Raised 13 (OperationalError "Could not decode to UTF-8 column")
       end)
  end.

(** The message of line 32. *)
Definition saved_message : str := lit "Data saved to todos_data.json".

(** Lines 29 to 33 on the document [result], from the state lines 4 to 27
    leave behind. *)
Definition emit_result (float_repr : float → str) (result : dict)
    (d : db_file) (o : option (list Byte.byte)) (w : bool) : state * outcome unit :=
  if w then
    let g := iterencode float_repr (PDict result) 0 in
    let ec := encode_chunks g.1 in
    match ec.2, g.2 with
    | None, None =>
        (State d (Some ec.1) true ConnClosed NoResult false [saved_message],
         Returned ())
    | Some e, _ | None, Some e =>
        (State d (Some ec.1) true ConnOpen NoResult false [], Raised 30 e)
    end
  else (State d o false ConnOpen NoResult false [], Raised 29 OSError).

(** The record of a row, as the specification describes it: the column
    names zipped with the values of the row. *)
Definition record_of (columns : list str) (row : list value) : dict :=
  zip columns (map Scalar row).

(** Are all the strings the encoder yields for the object encodable: its
    keys, its texts and the texts of its floats. *)
Fixpoint clean (float_repr : float → str) (o : pyobj) : bool :=
  match o with
  | Scalar (VText s) => encodable s
  | Scalar (VReal f) => encodable (floatstr float_repr f)
  | Scalar _ => true
  | PList l => forallb (clean float_repr) l
  | PDict d => forallb (λ kv, encodable kv.1 && clean float_repr kv.2) d
  end.

(** The text of the items of a list or dict, the first after [buf], the
    others after [sep]. *)
Definition items_text (buf sep : str) (items : list str) : str :=
  match items with
  | [] => []
  | x :: rest => buf ++ x ++ concat (map (λ y, sep ++ y) rest)
  end.

(** What the properties below say of a generator [g] run on the object [x]
    at nesting level [level]: it ends with [TypeError] exactly when [x]
    holds a value the encoder rejects; otherwise its text is the indented
    text of [x]; and its chunks are encodable when the strings of [x] are. *)
Definition gen_ok (float_repr : float → str) (x : pyobj) (level : nat) (g : gen) : Prop :=
  g.2 = (if has_blob x then Some TypeError else None) ∧
  (has_blob x = false → concat g.1 = pretty float_repr x level) ∧
  (clean float_repr x = true → Forall (λ c, encodable c = true) g.1).

(** A text of the specification written with single quotes where the file
    has double quotes. *)
Definition dq (s : string) : str :=
  map (λ c, if c =? 39 then 34 else c) (lit s).

(** The output file of the scenario. *)
Definition todos_json : str := dq
"{
  'table': 'todos',
  'columns': [
    'id',
    'title',
    'done'
  ],
  'row_count': 2,
  'data': [
    {
      'id': 1,
      'title': 'Buy milk',
      'done': 0
    },
    {
      'id': 2,
      'title': 'Pay bills',
      'done': 1
    }
  ]
}".

(** The [data] of the scenario, as the specification gives it. *)
Definition todos_data : list pyobj :=
  [ PDict [ (lit "id", Scalar (VInt 1));
            (lit "title", Scalar (VText (lit "Buy milk")));
            (lit "done", Scalar (VInt 0)) ];
    PDict [ (lit "id", Scalar (VInt 2));
            (lit "title", Scalar (VText (lit "Pay bills")));
            (lit "done", Scalar (VInt 1)) ] ].

(** A table with a blob cell, and a table with no rows. *)
Definition blob_db : db_file :=
  Database [("todos"%string,
             Table todos_columns
               [ [VInt 1; VText (lit "Buy milk"); VInt 0];
                 [VInt 2; VBlob [Byte.x00; Byte.xff]; VInt 1] ])].

Definition empty_db : db_file := Database [("todos"%string, Table todos_columns [])].

(** The document lines 4 to 27 build from [blob_db]. *)
Definition blob_result : dict :=
  Eval cbv in
    match (assemble (start blob_db None true)).2 with
    | Returned result => result
    | Raised _ _ => []
    end.

(** A cell the encoder rejects. *)
Definition is_blob (v : value) : bool :=
  match v with
  | VBlob _ => true
  | _ => false
  end.

(** A table the script exports without failure: distinct column names, one
    value per column in every row, no blob, and only strings that UTF-8 can
    encode. *)
Definition exportable (float_repr : float → str) (tb : table) : Prop :=
  NoDup (map ci_name (tbl_columns tb)) ∧
  Forall (λ row, length row = length (tbl_columns tb)) (tbl_rows tb) ∧
  Forall (λ c, encodable (ci_name c) = true) (tbl_columns tb) ∧
  Forall (Forall (λ v, is_blob v = false ∧ clean float_repr (Scalar v) = true))
    (tbl_rows tb).

(** Tables for the edge cases of the loops: a row with fewer values than
    columns, a row with more, and a column name that occurs twice. *)
Definition short_db : db_file :=
  Database [("todos"%string,
             Table todos_columns
               [ [VInt 1; VText (lit "Buy milk"); VInt 0];
                 [VInt 2; VText (lit "Pay bills")] ])].

Definition long_db : db_file :=
  Database [("todos"%string,
             Table todos_columns
               [ [VInt 1; VText (lit "Buy milk"); VInt 0; VNull] ])].

Definition twice_columns : list str := [lit "a"; lit "b"; lit "a"].

Definition twice_row : list value := [VInt 1; VInt 2; VInt 3].

Definition twice_item : dict :=
  [ (lit "a", Scalar (VInt 3)); (lit "b", Scalar (VInt 2)) ].

(** The scenario again, with other declared types and constraints and with
    a second table in the database. *)
Definition retyped_columns : list column_info :=
  [ ColumnInfo 0 (lit "id") (lit "BIGINT") 1 VNull 1;
    ColumnInfo 1 (lit "title") (lit "VARCHAR(80)") 1 (VText (lit "untitled")) 0;
    ColumnInfo 2 (lit "done") (lit "BOOLEAN") 0 (VInt 0) 0 ].

Definition retyped_tables : list (string * table) :=
  [ ("users"%string, Table [ColumnInfo 0 (lit "name") (lit "TEXT") 0 VNull 0]
                       [[VText (lit "ann")]]);
    ("todos"%string, Table retyped_columns todos_rows) ].

(** * Properties *)

(** ** The run of the script *)

Lemma data_append_document columns n data item :
  data_append (document columns n data) item =
  inr (document columns n (data ++ [PDict item])).
Proof. reflexivity. Qed.

Lemma for_rows_spec columns rows cs n data s :
  for_rows columns rows (document cs n data) s =
  (s, match records_of columns rows with
      | inr items => Returned (document cs n (data ++ map PDict items))
      | inl e => Raised 26 e
      end).
Proof.
  revert data. induction rows as [|row rows IH]; intros data.
  - simpl. by rewrite app_nil_r.
  - cbn [for_rows records_of].
    unfold mbind, M_bind, bind, at_line, pure.
    destruct (fill_item (enumerate columns) row []) as [e|item]; [done|].
    rewrite data_append_document, IH.
    destruct (records_of columns rows) as [e|items]; [done|].
    cbn [map]. by rewrite <- app_assoc.
Qed.

Lemma initial_result_document columns rows :
  initial_result columns rows = document columns (Z.of_nat (length rows)) [].
Proof. reflexivity. Qed.

Lemma assemble_start d o w :
  assemble (start d o w) =
  let '(d', c, r) := assemble_result d in (State d' o w c NoResult false [], r).
Proof.
  destruct d as [| | |tables|tables]; try reflexivity.
  all: unfold assemble, assemble_result, mbind, M_bind, bind, at_line.
  all: cbn -[for_rows initial_result records_of document].
  all: destruct (find_table "todos" tables) as [tb|] eqn:Htb;
    cbn -[for_rows initial_result records_of document];
    rewrite Htb; cbn -[for_rows initial_result records_of document]; try done.
  by rewrite initial_result_document, for_rows_spec.
Qed.

Lemma write_chunks_spec chunks err s old :
  out_file s = Some old →
  write_chunks chunks err s =
  (set_out_file (Some (old ++ (encode_chunks chunks).1)) s,
   match (encode_chunks chunks).2, err with
   | None, None => inr ()
   | Some e, _ | None, Some e => inl e
   end).
Proof.
  revert s old. induction chunks as [|chunk chunks IH]; intros s old Hs.
  - simpl. rewrite app_nil_r, <- Hs. by destruct s.
  - cbn [write_chunks encode_chunks]. unfold f_write.
    destruct (utf8_encode chunk) as [b|].
    + rewrite (IH _ (old ++ b)); [|by rewrite Hs].
      destruct (encode_chunks chunks) as [bs e]. cbn.
      by rewrite Hs, <- app_assoc.
    + cbn. rewrite app_nil_r, <- Hs. by destruct s.
Qed.

Lemma emit_spec float_repr result d o w :
  emit float_repr result (State d o w ConnOpen NoResult false []) =
  emit_result float_repr result d o w.
Proof.
  unfold emit, emit_result, with_open, json_dump, mbind, M_bind, bind, at_line, open_w.
  destruct w; [|done]. cbn [out_writable].
  destruct (iterencode float_repr (PDict result) 0) as [chunks err].
  rewrite (write_chunks_spec _ _ _ []) by done.
  cbn [fst snd].
  destruct (encode_chunks chunks) as [bs [e|]]; [done|].
  destruct err; done.
Qed.

Lemma assemble_result_returned d d' c result :
  assemble_result d = (d', c, Returned result) →
  c = ConnOpen ∧ d' = d ∧
  ∃ tables tb items,
    d = Database tables ∧ find_table "todos" tables = Some tb ∧
    records_of (map info_1 (tbl_columns tb)) (tbl_rows tb) = inr items ∧
    result = document (map info_1 (tbl_columns tb))
               (Z.of_nat (length (tbl_rows tb))) (map PDict items).
Proof.
  destruct d as [| | |tables|tables]; intros Hd; simplify_eq/=;
    destruct (find_table "todos" tables) as [tb|] eqn:Htb; simplify_eq/=.
  destruct (records_of _ _) as [e|items] eqn:Hr; simplify_eq/=.
  split; [done|]. split; [done|]. by eexists _, _, _.
Qed.

Lemma run_spec float_repr d o w :
  run float_repr d o w =
  let '(d', c, r) := assemble_result d in
  match r with
  | Returned result => emit_result float_repr result d' o w
  | Raised l e => (State d' o w c NoResult false [], Raised l e)
  end.
Proof.
  unfold run, read_db, mbind, M_bind, bind. rewrite assemble_start.
  destruct (assemble_result d) as [[d' c] [result|l e]] eqn:Hd; [|done].
  destruct (assemble_result_returned _ _ _ _ Hd) as (-> & _).
  apply emit_spec.
Qed.


(** ** Records *)

Lemma dict_setitem_fresh d k v :
  k ∉ keys d → dict_setitem d k v = d ++ [(k, v)].
Proof.
  induction d as [|[k' v'] d IH]; intros Hk; [done|].
  cbn in *. apply not_elem_of_cons in Hk as [Hne Hk].
  rewrite decide_False by done. by rewrite IH.
Qed.

Lemma fill_item_spec cs : ∀ n row item,
  NoDup (keys item ++ cs) →
  (n + length cs ≤ length row)%nat →
  fill_item (zip (seq n (length cs)) cs) row item =
  inr (item ++ zip cs (map Scalar (drop n row))).
Proof.
  induction cs as [|c cs IH]; intros n row item Hnd Hlen.
  - simpl. by rewrite app_nil_r.
  - cbn [length seq zip zip_with fill_item] in *.
    destruct (lookup_lt_is_Some_2 row n) as [v Hv]; [lia|].
    rewrite Hv, dict_setitem_fresh.
    2:{ apply NoDup_app in Hnd as (_ & Hdisj & _).
        intros Hin. apply (Hdisj c Hin). by left. }
    rewrite IH; [| |lia].
    + rewrite (drop_S _ _ _ Hv). cbn. by rewrite <- app_assoc.
    + unfold keys in *. rewrite map_app. cbn.
      rewrite <- app_assoc. exact Hnd.
Qed.

Lemma fill_item_record_of columns row :
  NoDup columns → length row = length columns →
  fill_item (enumerate columns) row [] = inr (record_of columns row).
Proof.
  intros Hnd Hlen. unfold enumerate, record_of.
  rewrite fill_item_spec; [done|done|lia].
Qed.

Lemma records_of_spec columns rows :
  NoDup columns →
  Forall (λ row, length row = length columns) rows →
  records_of columns rows = inr (map (record_of columns) rows).
Proof.
  intros Hnd. induction 1 as [|row rows Hrow _ IH]; [done|].
  cbn. by rewrite fill_item_record_of, IH.
Qed.

Lemma records_of_long columns rows :
  NoDup columns →
  Forall (λ row, (length columns ≤ length row)%nat) rows →
  records_of columns rows = inr (map (record_of columns) rows).
Proof.
  intros Hnd. induction 1 as [|row rows Hrow _ IH]; [done|].
  cbn. unfold enumerate at 1. rewrite fill_item_spec, IH; [|done|cbn; lia].
  by rewrite drop_0.
Qed.

Lemma keys_record_of columns row :
  length row = length columns → keys (record_of columns row) = columns.
Proof.
  intros Hlen. unfold keys, record_of.
  apply (fst_zip columns (map Scalar row)). rewrite length_map. lia.
Qed.

Lemma dict_get_record_of columns : ∀ row i c v,
  NoDup columns →
  columns !! i = Some c → row !! i = Some v →
  dict_get (record_of columns row) c = Some (Scalar v).
Proof.
  unfold record_of.
  induction columns as [|c0 columns IH]; intros row i c v Hnd Hc Hv; [done|].
  destruct row as [|v0 row]; [by destruct i|].
  apply NoDup_cons in Hnd as [Hc0 Hnd]. cbn.
  destruct i as [|i]; simplify_eq/=.
  - by rewrite decide_True.
  - rewrite decide_False; [by eapply IH|].
    intros ->. apply Hc0. by eapply list_elem_of_lookup_2.
Qed.

(** C1. For a table whose column names are distinct and whose rows have one
    value per column, the script builds the document: its [row_count] is the
    length of its [data], which is the number of rows, and the keys of every
    record are exactly the columns. *)
Theorem C1_document_invariant tables tb o w :
  find_table "todos" tables = Some tb →
  NoDup (map ci_name (tbl_columns tb)) →
  Forall (λ row, length row = length (tbl_columns tb)) (tbl_rows tb) →
  ∃ s result (data : list dict),
    assemble (start (Database tables) o w) = (s, Returned result) ∧
    dict_get result (lit "columns") =
      Some (PList (map (λ c, Scalar (VText c)) (map ci_name (tbl_columns tb)))) ∧
    dict_get result (lit "row_count") =
      Some (Scalar (VInt (Z.of_nat (length data)))) ∧
    dict_get result (lit "data") = Some (PList (map PDict data)) ∧
    length data = length (tbl_rows tb) ∧
    Forall (λ record, keys record = map ci_name (tbl_columns tb)) data.
Proof.
  intros Htb Hnd Hrows.
  rewrite assemble_start. cbn [assemble_result]. rewrite Htb.
  change (map info_1 (tbl_columns tb)) with (map ci_name (tbl_columns tb)).
  rewrite records_of_spec; [|done|].
  2:{ eapply Forall_impl; [exact Hrows|]. intros row Hrow. cbn in Hrow.
      by rewrite length_map. }
  eexists _, _, (map (record_of (map ci_name (tbl_columns tb))) (tbl_rows tb)).
  split; [reflexivity|].
  rewrite length_map. repeat split.
  apply Forall_map. eapply Forall_impl; [exact Hrows|].
  intros row Hrow. cbn in *. apply keys_record_of. by rewrite length_map.
Qed.

(** C9. [columns] lists the column names in the order the table declares
    them, and the record of the j-th row maps the i-th column name to the
    i-th value of that row, as it is.  This holds for every table with
    distinct column names whose rows have at least one value per column
    (a row may hold more values than there are column names). *)
Theorem C9_columns_order_values_unchanged tables tb o w :
  find_table "todos" tables = Some tb →
  NoDup (map ci_name (tbl_columns tb)) →
  Forall (λ row, (length (tbl_columns tb) ≤ length row)%nat) (tbl_rows tb) →
  ∃ s result (data : list dict),
    assemble (start (Database tables) o w) = (s, Returned result) ∧
    dict_get result (lit "columns") =
      Some (PList (map (λ c, Scalar (VText c)) (map ci_name (tbl_columns tb)))) ∧
    dict_get result (lit "data") = Some (PList (map PDict data)) ∧
    length data = length (tbl_rows tb) ∧
    ∀ j row record i c v,
      tbl_rows tb !! j = Some row → data !! j = Some record →
      tbl_columns tb !! i = Some c → row !! i = Some v →
      dict_get record (ci_name c) = Some (Scalar v).
Proof.
  intros Htb Hnd Hrows.
  rewrite assemble_start. cbn [assemble_result]. rewrite Htb.
  change (map info_1 (tbl_columns tb)) with (map ci_name (tbl_columns tb)).
  rewrite records_of_long; [|done|].
  2:{ eapply Forall_impl; [exact Hrows|]. intros row Hrow. cbn in Hrow.
      by rewrite length_map. }
  eexists _, _, (map (record_of (map ci_name (tbl_columns tb))) (tbl_rows tb)).
  split; [reflexivity|].
  rewrite length_map. repeat split.
  intros j row record i c v Hrow Hrec Hc Hv.
  rewrite list_lookup_fmap, Hrow in Hrec. simplify_eq/=.
  eapply dict_get_record_of; [done| |done].
  by rewrite list_lookup_fmap, Hc.
Qed.

(** ** The encoder *)

Lemma pyobj_nested_ind (Q : pyobj → Prop) :
  (∀ v, Q (Scalar v)) →
  (∀ l, Forall Q l → Q (PList l)) →
  (∀ d, Forall (λ kv, Q kv.2) d → Q (PDict d)) →
  ∀ o, Q o.
Proof.
  intros Hs Hl Hd. fix IH 1. intros [v|l|d].
  - apply Hs.
  - apply Hl. induction l as [|x l IHl]; constructor; [apply IH|exact IHl].
  - apply Hd. induction d as [|[k x] d IHd]; constructor; [apply IH|exact IHd].
Qed.

Lemma gen_seq_yield s g : (yield s ;;; g) = (s :: g.1, g.2).
Proof. reflexivity. Qed.

Lemma gen_seq_done g : (gen_done ;;; g) = g.
Proof. by destruct g. Qed.

Lemma gen_seq_ok g1 g2 : g1.2 = None → (g1 ;;; g2) = (g1.1 ++ g2.1, g2.2).
Proof. destruct g1 as [c [e|]]; [done|]. by intros _. Qed.

Lemma gen_seq_err g1 g2 e : g1.2 = Some e → (g1 ;;; g2).2 = Some e.
Proof. destruct g1 as [c [e'|]]; [|done]. by intros [= ->]. Qed.

Lemma items_text_sep sep items :
  items_text sep sep items = concat (map (λ y, sep ++ y) items).
Proof. destruct items; [done|]. cbn. by rewrite <- app_assoc. Qed.

Lemma items_text_join buf sep x items :
  items_text buf sep (x :: items) = buf ++ join sep (x :: items).
Proof. reflexivity. Qed.

Lemma scalar_value_small c : c < 256 → scalar_value c = true.
Proof.
  intros Hc. unfold scalar_value, is_surrogate.
  apply andb_true_iff. split; [apply N.ltb_lt; lia|].
  apply negb_true_iff, andb_false_iff. left. apply N.leb_gt. lia.
Qed.

Lemma encodable_app a b : encodable (a ++ b) = encodable a && encodable b.
Proof. apply forallb_app. Qed.

Lemma encodable_lit s : encodable (lit s) = true.
Proof.
  unfold lit. induction s as [|a s IH]; [done|].
  cbn. apply andb_true_iff. split; [|exact IH].
  apply scalar_value_small, N_ascii_bounded.
Qed.

Lemma encodable_concat l :
  Forall (λ c, encodable c = true) l → encodable (concat l) = true.
Proof.
  induction 1 as [|x l Hx _ IH]; [done|].
  cbn. by rewrite encodable_app, Hx, IH.
Qed.

Lemma encodable_indent level : encodable (indent_str level) = true.
Proof.
  unfold indent_str. apply encodable_concat, Forall_replicate, encodable_lit.
Qed.

Lemma hex_digit_small n : n < 16 → hex_digit n < 256.
Proof. intros Hn. unfold hex_digit. destruct (n <? 10); lia. Qed.

Lemma encodable_escape_char c :
  scalar_value c = true → encodable (escape_char c) = true.
Proof.
  intros Hc. unfold escape_char.
  repeat (case_match; [done|]).
  case_match eqn:Hlt; [|by cbn; rewrite Hc].
  apply N.ltb_lt in Hlt. cbn -[N.div N.modulo].
  rewrite !scalar_value_small; [done| | ].
  - apply hex_digit_small. apply N.mod_lt. lia.
  - apply hex_digit_small.
    apply N.Div0.div_lt_upper_bound. lia.
Qed.

Lemma encodable_basestring s :
  encodable s = true → encodable (encode_basestring s) = true.
Proof.
  intros Hs. unfold encode_basestring.
  rewrite !encodable_app. cbn.
  rewrite andb_true_r. apply encodable_concat, Forall_map.
  apply Forall_forall. intros c Hc. cbn.
  apply encodable_escape_char.
  unfold encodable in Hs. rewrite forallb_forall in Hs.
  by apply Hs, list_elem_of_In.
Qed.

Lemma atom_text_encodable float_repr v t :
  atom_text float_repr v = Some t →
  clean float_repr (Scalar v) = true → encodable t = true.
Proof.
  destruct v; intros [= <-] Hc; cbn [clean] in Hc;
    auto using encodable_lit, encodable_basestring.
  apply encodable_lit.
Qed.

Lemma has_blob_list l : has_blob (PList l) = existsb has_blob l.
Proof. reflexivity. Qed.

Lemma has_blob_dict d : has_blob (PDict d) = existsb (λ kv, has_blob kv.2) d.
Proof. reflexivity. Qed.

Lemma clean_list float_repr l :
  clean float_repr (PList l) = forallb (clean float_repr) l.
Proof. reflexivity. Qed.

Lemma clean_dict float_repr d :
  clean float_repr (PDict d) =
  forallb (λ kv, encodable kv.1 && clean float_repr kv.2) d.
Proof. reflexivity. Qed.

Section Loops.

Variable float_repr : float → str.
Variable rec : pyobj → nat → gen.

Lemma list_item_ok value buf level :
  gen_ok float_repr value level (rec value level) →
  let g :=
    match value with
    | Scalar v =>
        match atom_text float_repr v with
        | Some t => yield (buf ++ t)
        | None => yield buf ;;; rec value level
        end
    | _ => yield buf ;;; rec value level
    end in
  g.2 = (if has_blob value then Some TypeError else None) ∧
  (has_blob value = false → concat g.1 = buf ++ pretty float_repr value level) ∧
  (clean float_repr value = true → encodable buf = true →
   Forall (λ c, encodable c = true) g.1).
Proof.
  intros (He & Ht & Hc).
  assert (∀ g', g' = (yield buf ;;; rec value level) →
    g'.2 = (if has_blob value then Some TypeError else None) ∧
    (has_blob value = false → concat g'.1 = buf ++ pretty float_repr value level) ∧
    (clean float_repr value = true → encodable buf = true →
     Forall (λ c, encodable c = true) g'.1))
    as Hgen.
  { intros g' ->. rewrite gen_seq_yield. cbn [fst snd]. split; [done|]. split.
    - intros Hb. cbn. by rewrite Ht.
    - intros Hcl Hbuf. constructor; [done|by apply Hc]. }
  destruct value as [v|l|d]; [|by apply Hgen..].
  destruct (atom_text float_repr v) as [t|] eqn:Hv; [|by apply Hgen].
  cbn [fst snd yield]. split; [by destruct v|]. split.
  - intros _. cbn. by rewrite Hv, app_nil_r.
  - intros Hcl Hbuf. constructor; [|done].
    rewrite encodable_app, Hbuf. by eapply atom_text_encodable.
Qed.

Lemma list_loop_ok lst :
  Forall (λ x, ∀ level, gen_ok float_repr x level (rec x level)) lst →
  ∀ buf separator level,
  let g := list_loop float_repr rec lst buf separator level in
  g.2 = (if existsb has_blob lst then Some TypeError else None) ∧
  (existsb has_blob lst = false →
   concat g.1 = items_text buf separator (map (λ x, pretty float_repr x level) lst)) ∧
  (forallb (clean float_repr) lst = true → encodable buf = true →
   encodable separator = true → Forall (λ c, encodable c = true) g.1).
Proof.
  induction 1 as [|value rest Hvalue _ IH]; intros buf separator level; [done|].
  cbn [list_loop existsb forallb map].
  destruct (list_item_ok value buf level (Hvalue level)) as (He & Ht & Hc).
  destruct (IH separator separator level) as (He' & Ht' & Hc').
  cbv zeta in *.
  destruct (has_blob value) eqn:Hb.
  - split; [by apply gen_seq_err|]. split; [done|].
    intros [Hcv Hcr]%andb_true_iff Hbuf Hsep.
    specialize (Hc Hcv Hbuf).
    destruct (match value with Scalar _ => _ | _ => _ end) as [c [e|]];
      [done|discriminate].
  - rewrite gen_seq_ok by done. cbn [fst snd orb]. split; [done|]. split.
    + intros Hr. rewrite concat_app, Ht, Ht' by done.
      cbn. by rewrite items_text_sep, <- app_assoc.
    + intros [Hcv Hcr]%andb_true_iff Hbuf Hsep.
      apply Forall_app. auto.
Qed.

Lemma dict_value_ok value level :
  gen_ok float_repr value level (rec value level) →
  gen_ok float_repr value level
    match value with
    | Scalar v =>
        match atom_text float_repr v with
        | Some t => yield t
        | None => rec value level
        end
    | _ => rec value level
    end.
Proof.
  intros Hrec. destruct value as [v|l|d]; [|done..].
  destruct (atom_text float_repr v) as [t|] eqn:Hv; [|done].
  split; [by destruct v|]. split.
  - intros _. cbn. by rewrite Hv, app_nil_r.
  - intros Hcl. constructor; [|done]. by eapply atom_text_encodable.
Qed.

Lemma dict_loop_ok items :
  Forall (λ kv, ∀ level, gen_ok float_repr kv.2 level (rec kv.2 level)) items →
  ∀ first item_separator level,
  let g := dict_loop float_repr rec items first item_separator level in
  g.2 = (if existsb (λ kv, has_blob kv.2) items then Some TypeError else None) ∧
  (existsb (λ kv, has_blob kv.2) items = false →
   concat g.1 =
   items_text (if first then [] else item_separator) item_separator
     (map (λ kv, encode_basestring kv.1 ++ lit ": " ++ pretty float_repr kv.2 level)
        items)) ∧
  (forallb (λ kv, encodable kv.1 && clean float_repr kv.2) items = true →
   encodable item_separator = true → Forall (λ c, encodable c = true) g.1).
Proof.
  induction 1 as [|[key value] rest Hvalue _ IH];
    intros first item_separator level; [done|].
  cbn [dict_loop existsb forallb map fst snd] in *.
  destruct (dict_value_ok value level (Hvalue level)) as (He & Ht & Hc).
  destruct (IH false item_separator level) as (He' & Ht' & Hc').
  cbv zeta in *.
  set (sep := if first then gen_done else yield item_separator).
  assert (sep.2 = None) as Hsep2 by (by destruct first).
  rewrite (gen_seq_ok sep) by done. rewrite !gen_seq_yield. cbn [fst snd].
  destruct (has_blob value) eqn:Hb.
  - split; [by apply gen_seq_err|]. split; [done|].
    intros [[Hk Hcv]%andb_true_iff Hcr]%andb_true_iff Hsep.
    specialize (Hc Hcv).
    destruct (match value with Scalar _ => _ | _ => _ end) as [c [e|]];
      [|discriminate].
    cbn. apply Forall_app. split; [by destruct first; repeat constructor|].
    repeat constructor; [by apply encodable_basestring|done].
  - rewrite gen_seq_ok by done. cbn [fst snd orb]. split; [done|]. split.
    + intros Hr. rewrite concat_app. cbn [concat].
      rewrite concat_app, Ht, Ht' by done.
      rewrite items_text_sep. destruct first; cbn; by rewrite <- ?app_assoc.
    + intros [[Hk Hcv]%andb_true_iff Hcr]%andb_true_iff Hsep.
      apply Forall_app. split; [by destruct first; repeat constructor|].
      repeat constructor; [by apply encodable_basestring|].
      apply Forall_app. auto.
Qed.

Lemma iterencode_list_ok lst level :
  Forall (λ x, ∀ level, gen_ok float_repr x level (rec x level)) lst →
  gen_ok float_repr (PList lst) level (iterencode_list float_repr rec lst level).
Proof.
  intros Hlst. destruct lst as [|x lst]; [by repeat split; repeat constructor|].
  unfold iterencode_list. cbv zeta.
  set (newline_indent := NL ++ indent_str (S level)).
  destruct (list_loop_ok _ Hlst (lit "[" ++ newline_indent)
              (lit "," ++ newline_indent) (S level)) as (He & Ht & Hc).
  cbv zeta in *. unfold gen_ok. rewrite has_blob_list, clean_list.
  destruct (existsb has_blob (x :: lst)) eqn:Hb.
  - split; [by apply gen_seq_err|]. split; [done|].
    intros Hcl. specialize (Hc Hcl).
    destruct (list_loop _ _ _ _ _ _) as [c [e|]]; [|discriminate].
    apply Hc; subst newline_indent; rewrite ?encodable_app, ?encodable_indent; done.
  - rewrite gen_seq_ok by done. rewrite !gen_seq_yield. cbn [fst snd].
    split; [done|]. split.
    + intros _. rewrite concat_app, Ht by done.
      cbn [pretty block map]. rewrite items_text_join.
      subst newline_indent. cbn [concat yield fst].
      by rewrite <- !app_assoc, ?app_nil_r.
    + intros Hcl. apply Forall_app. split.
      * apply Hc; [done|..]; subst newline_indent;
          rewrite ?encodable_app, ?encodable_indent; done.
      * repeat constructor. by rewrite encodable_app, encodable_indent.
Qed.

Lemma iterencode_dict_ok dct level :
  Forall (λ kv, ∀ level, gen_ok float_repr kv.2 level (rec kv.2 level)) dct →
  gen_ok float_repr (PDict dct) level (iterencode_dict float_repr rec dct level).
Proof.
  intros Hdct. destruct dct as [|kv dct]; [by repeat split; repeat constructor|].
  unfold iterencode_dict. cbv zeta.
  set (newline_indent := NL ++ indent_str (S level)).
  destruct (dict_loop_ok _ Hdct true (lit "," ++ newline_indent) (S level))
    as (He & Ht & Hc).
  cbv zeta in *. unfold gen_ok.
  rewrite has_blob_dict, clean_dict, !gen_seq_yield. cbn [fst snd].
  assert (encodable newline_indent = true) as Hni.
  { subst newline_indent. by rewrite encodable_app, encodable_indent. }
  destruct (existsb (λ kv, has_blob kv.2) (kv :: dct)) eqn:Hb.
  - split; [by apply gen_seq_err|]. split; [done|].
    intros Hcl. specialize (Hc Hcl).
    destruct (dict_loop _ _ _ _ _ _) as [c [e|]]; [|discriminate].
    repeat constructor; [done|]. apply Hc. by rewrite encodable_app, Hni.
  - rewrite gen_seq_ok by done. cbn [fst snd yield].
    split; [done|]. split.
    + intros _. cbn [concat]. rewrite concat_app, Ht by done.
      cbn [pretty block map]. rewrite items_text_join.
      subst newline_indent. cbn [concat].
      by rewrite <- !app_assoc, ?app_nil_r.
    + intros Hcl. repeat constructor; [done|]. apply Forall_app. split.
      * apply Hc; [done|]. by rewrite encodable_app, Hni.
      * repeat constructor. by rewrite encodable_app, encodable_indent.
Qed.

End Loops.

Lemma iterencode_ok float_repr o :
  ∀ level, gen_ok float_repr o level (iterencode float_repr o level).
Proof.
  induction o as [v|l IH|d IH] using pyobj_nested_ind; intros level.
  - cbn [iterencode]. destruct (atom_text float_repr v) as [t|] eqn:Hv.
    + split; [by destruct v|]. split.
      * intros _. cbn. by rewrite Hv, app_nil_r.
      * intros Hcl. constructor; [|done]. by eapply atom_text_encodable.
    + destruct v; try discriminate. by repeat split.
  - by apply iterencode_list_ok.
  - by apply iterencode_dict_ok.
Qed.


(** ** Writing *)

Lemma utf8_char_scalar c : scalar_value c = true → is_Some (utf8_char c).
Proof.
  unfold scalar_value, utf8_char.
  intros [Hlt Hs%negb_true_iff]%andb_true_iff. rewrite Hs, Hlt.
  repeat case_match; eauto.
Qed.

Lemma utf8_encode_encodable s : encodable s = true → is_Some (utf8_encode s).
Proof.
  induction s as [|c s IH]; [by eexists|].
  cbn. intros [Hc Hs]%andb_true_iff.
  destruct (utf8_char_scalar c Hc) as [b ->], (IH Hs) as [bs ->]. by eexists.
Qed.

Lemma utf8_encode_app a b :
  utf8_encode (a ++ b) =
  match utf8_encode a, utf8_encode b with
  | Some x, Some y => Some (x ++ y)
  | _, _ => None
  end.
Proof.
  induction a as [|c a IH]; cbn.
  - by destruct (utf8_encode b).
  - rewrite IH. destruct (utf8_char c), (utf8_encode a), (utf8_encode b);
      try done. by rewrite app_assoc.
Qed.

Lemma encode_chunks_concat chunks :
  (encode_chunks chunks).2 = None →
  utf8_encode (concat chunks) = Some (encode_chunks chunks).1.
Proof.
  induction chunks as [|chunk chunks IH]; [done|].
  cbn. rewrite utf8_encode_app.
  destruct (utf8_encode chunk) as [b|]; [|done].
  destruct (encode_chunks chunks) as [bs e]. cbn in *.
  intros ->. by rewrite IH.
Qed.

Lemma encode_chunks_encodable chunks :
  Forall (λ c, encodable c = true) chunks → (encode_chunks chunks).2 = None.
Proof.
  induction 1 as [|chunk chunks Hc _ IH]; [done|].
  cbn. destruct (utf8_encode_encodable chunk Hc) as [b ->].
  by destruct (encode_chunks chunks).
Qed.

Lemma encode_chunks_prefix chunks :
  ∃ k, utf8_encode (concat (take k chunks)) = Some (encode_chunks chunks).1.
Proof.
  induction chunks as [|chunk chunks [k IH]]; [by exists 0%nat|].
  cbn. destruct (utf8_encode chunk) as [b|] eqn:Hb; [|by exists 0%nat].
  exists (S k). cbn. rewrite utf8_encode_app, Hb, IH.
  by destruct (encode_chunks chunks).
Qed.

Lemma document_text_pretty float_repr columns n data :
  pretty float_repr (PDict (document columns n data)) 0 =
  document_text float_repr columns n data.
Proof.
  unfold document_text, document.
  cbn [pretty block map join concat fst snd default atom_text indent_str replicate].
  by rewrite <- ?app_assoc, ?app_nil_r.
Qed.

(** ** The output file *)

Lemma escape_char_plain c : 32 ≤ c → c ≠ 34 → c ≠ 92 → escape_char c = [c].
Proof.
  intros H32 H34 H92. unfold escape_char.
  repeat (case_match eqn:Heq;
          [first [apply N.eqb_eq in Heq | apply N.ltb_lt in Heq]; lia|clear Heq]).
  done.
Qed.

Lemma encode_basestring_plain s :
  Forall (λ c, 32 ≤ c ∧ c ≠ 34 ∧ c ≠ 92) s →
  encode_basestring s = QUOTE ++ s ++ QUOTE.
Proof.
  intros Hs. unfold encode_basestring. do 2 f_equal.
  induction Hs as [|c s (H32 & H34 & H92) _ IH]; [done|].
  cbn. by rewrite escape_char_plain, IH.
Qed.

Lemma indent_str_spaces level : indent_str level = replicate (2 * level) 32.
Proof.
  unfold indent_str. induction level as [|level IH]; [done|].
  replace (2 * S level)%nat with (S (S (2 * level))) by lia.
  cbn [replicate concat]. by rewrite IH.
Qed.

(** The text [é] (U+00E9) is written between quotes as the two bytes of
    its UTF-8 encoding, not as an escape. *)
Example encode_e_acute :
  utf8_encode (encode_basestring [0xE9]) =
  Some [Byte.x22; Byte.xc3; Byte.xa9; Byte.x22].
Proof. reflexivity. Qed.

(** What a run that returns has written. *)
Lemma run_returned float_repr d o w s :
  run float_repr d o w = (s, Returned ()) →
  ∃ d' result bytes,
    assemble_result d = (d', ConnOpen, Returned result) ∧
    w = true ∧
    has_blob (PDict result) = false ∧
    utf8_encode (pretty float_repr (PDict result) 0) = Some bytes ∧
    s = State d' (Some bytes) true ConnClosed NoResult false [saved_message].
Proof.
  rewrite run_spec.
  destruct (assemble_result d) as [[d' c] [result|l e]] eqn:Hd; [|done].
  destruct (assemble_result_returned _ _ _ _ Hd) as (-> & _).
  unfold emit_result. destruct w; [|done].
  destruct (iterencode_ok float_repr (PDict result) 0) as (He & Ht & _).
  destruct (encode_chunks _) as [bs e] eqn:Hec. cbn [fst snd].
  destruct e; [done|].
  destruct (has_blob (PDict result)) eqn:Hb; rewrite He; [done|].
  intros [= <-]. eexists _, _, _. repeat split; [done|].
  rewrite <- Ht by done.
  rewrite encode_chunks_concat; by rewrite Hec.
Qed.

(** C7. When the script returns, the file at the output path holds, whatever
    it held before, the UTF-8 encoding of the document as indented text:
    the keys [table], [columns], [row_count], [data] in this order, one per
    line behind two spaces, the nested items two spaces deeper per level
    (the indentation of level [n] is [2 * n] spaces).  A string keeps every
    character outside the control range, the double quote and the backslash
    as it is; so every non-ASCII character is written literally. *)
Theorem C7_output_format float_repr d o w s :
  run float_repr d o w = (s, Returned ()) →
  ∃ s0 columns n data bytes,
    assemble (start d o w) = (s0, Returned (document columns n data)) ∧
    keys (document columns n data) =
      [lit "table"; lit "columns"; lit "row_count"; lit "data"] ∧
    out_file s = Some bytes ∧
    utf8_encode (document_text float_repr columns n data) = Some bytes ∧
    (∀ level x, has_blob x = false →
       text_of (iterencode float_repr x level) = pretty float_repr x level) ∧
    (∀ level, indent_str level = replicate (2 * level) 32) ∧
    (∀ c, 0x80 ≤ c → escape_char c = [c]) ∧
    (∀ t, Forall (λ c, 32 ≤ c ∧ c ≠ 34 ∧ c ≠ 92) t →
       encode_basestring t = QUOTE ++ t ++ QUOTE).
Proof.
  intros Hrun.
  destruct (run_returned _ _ _ _ _ Hrun) as (d' & result & bytes & Hd & -> & Hb & Hu & ->).
  rewrite assemble_start, Hd.
  assert (∃ columns n data, result = document columns n data)
    as (columns & n & data & ->).
  { destruct (assemble_result_returned _ _ _ _ Hd)
      as (_ & _ & tables & tb & items & _ & _ & _ & ->).
    by eexists _, _, _. }
  eexists _, columns, n, data, bytes.
  split; [done|]. split; [done|]. split; [done|].
  split; [by rewrite <- document_text_pretty|].
  split; [intros level x Hx; by apply iterencode_ok|].
  split; [apply indent_str_spaces|].
  split; [|apply encode_basestring_plain].
  intros c Hc. apply escape_char_plain; lia.
Qed.

(** C6. Two runs on the same database that both return leave the same
    bytes in the output file, whatever the file held before either run. *)
Theorem C6_deterministic float_repr d o1 o2 w1 w2 s1 s2 :
  run float_repr d o1 w1 = (s1, Returned ()) →
  run float_repr d o2 w2 = (s2, Returned ()) →
  out_file s1 = out_file s2.
Proof.
  intros H1 H2.
  destruct (run_returned _ _ _ _ _ H1) as (d1 & r1 & b1 & Hd1 & _ & _ & Hu1 & ->).
  destruct (run_returned _ _ _ _ _ H2) as (d2 & r2 & b2 & Hd2 & _ & _ & Hu2 & ->).
  cbn. congruence.
Qed.

(** What a run on a table comes to, once the document is known. *)
Lemma run_table float_repr tables tb o w :
  find_table "todos" tables = Some tb →
  NoDup (map ci_name (tbl_columns tb)) →
  Forall (λ row, length row = length (tbl_columns tb)) (tbl_rows tb) →
  run float_repr (Database tables) o w =
  emit_result float_repr
    (document (map ci_name (tbl_columns tb)) (Z.of_nat (length (tbl_rows tb)))
       (map PDict (map (record_of (map ci_name (tbl_columns tb))) (tbl_rows tb))))
    (Database tables) o w.
Proof.
  intros Htb Hnd Hrows. rewrite run_spec. cbn [assemble_result]. rewrite Htb.
  change (map info_1 (tbl_columns tb)) with (map ci_name (tbl_columns tb)).
  rewrite records_of_spec; [done|done|].
  eapply Forall_impl; [exact Hrows|]. intros row Hrow. cbn in Hrow.
  by rewrite length_map.
Qed.

Lemma clean_columns float_repr columns :
  Forall (λ c, encodable c = true) columns →
  forallb (clean float_repr) (map (λ c, Scalar (VText c)) columns) = true.
Proof. induction 1 as [|c cs Hc _ IH]; [done|]. cbn. by rewrite Hc, IH. Qed.

(** C5. On a table with no rows the script returns when the output file
    can be opened for writing; the document has [row_count] 0 and an empty
    [data], and the file holds its text. *)
Theorem C5_empty_table float_repr tables tb o :
  find_table "todos" tables = Some tb →
  tbl_rows tb = [] →
  Forall (λ c, encodable (ci_name c) = true) (tbl_columns tb) →
  ∃ s0 s result bytes,
    assemble (start (Database tables) o true) = (s0, Returned result) ∧
    dict_get result (lit "row_count") = Some (Scalar (VInt 0)) ∧
    dict_get result (lit "data") = Some (PList []) ∧
    run float_repr (Database tables) o true = (s, Returned ()) ∧
    out_file s = Some bytes ∧
    utf8_encode
      (document_text float_repr (map ci_name (tbl_columns tb)) 0 []) = Some bytes.
Proof.
  intros Htb Hrows Hcols.
  rewrite run_spec, assemble_start. cbn [assemble_result].
  rewrite Htb, Hrows. cbn [records_of length map].
  change (Z.of_nat 0) with 0%Z.
  change (map info_1 (tbl_columns tb)) with (map ci_name (tbl_columns tb)).
  set (columns := map ci_name (tbl_columns tb)).
  assert (Forall (λ c, encodable c = true) columns) as Hcolumns.
  { subst columns. by apply Forall_map. }
  unfold emit_result.
  destruct (iterencode_ok float_repr (PDict (document columns 0 [])) 0)
    as (He & Ht & Hc).
  assert (has_blob (PDict (document columns 0 [])) = false) as Hb.
  { cbn. rewrite !orb_false_r. clear. by induction columns. }
  assert (clean float_repr (PDict (document columns 0 [])) = true) as Hcl.
  { cbn. rewrite !andb_true_r. by apply clean_columns. }
  rewrite Hb in He. specialize (Ht Hb). specialize (Hc Hcl).
  rewrite encode_chunks_encodable, He by done.
  eexists _, _, _, _. repeat split.
  rewrite <- document_text_pretty, <- Ht.
  by apply encode_chunks_concat, encode_chunks_encodable.
Qed.

Lemma assemble_result_document d d' c result :
  assemble_result d = (d', c, Returned result) →
  c = ConnOpen ∧ ∃ columns n data, result = document columns n data.
Proof.
  intros Hd.
  destruct (assemble_result_returned _ _ _ _ Hd)
    as (-> & _ & tables & tb & items & _ & _ & _ & ->).
  split; [done|]. by eexists _, _, _.
Qed.

(** C10. When the document holds a value the encoder rejects and the output
    file can be opened, the script fails on line 30, inside [json.dump]: the
    encoder ends with [TypeError], the file has been truncated and holds
    only the bytes of the chunks written before the failure, which start
    with the opening brace and do not depend on what the file held before;
    the handle is closed. *)
Theorem C10_blob_leaves_partial_file float_repr d o s0 result :
  assemble (start d o true) = (s0, Returned result) →
  has_blob (PDict result) = true →
  ∃ s e partial rest k,
    run float_repr d o true = (s, Raised 30 e) ∧
    step_of_line 30 = SerializeAndWrite ∧
    (iterencode float_repr (PDict result) 0).2 = Some TypeError ∧
    out_file s = Some partial ∧
    partial = (encode_chunks (iterencode float_repr (PDict result) 0).1).1 ∧
    partial = Byte.x7b :: rest ∧
    utf8_encode (concat (take k (iterencode float_repr (PDict result) 0).1))
      = Some partial ∧
    f_open s = false.
Proof.
  intros Ha Hb. rewrite assemble_start in Ha. rewrite run_spec.
  destruct (assemble_result d) as [[d' c] r] eqn:Hd.
  injection Ha as _ ->.
  destruct (assemble_result_document _ _ _ _ Hd)
    as (-> & columns & n & data & ->).
  destruct (iterencode_ok float_repr (PDict (document columns n data)) 0)
    as (He & _ & _).
  rewrite Hb in He. unfold emit_result. rewrite He.
  destruct (encode_chunks_prefix
              (iterencode float_repr (PDict (document columns n data)) 0).1)
    as [k Hk].
  assert (∃ rest,
    (encode_chunks (iterencode float_repr (PDict (document columns n data)) 0).1).1
    = Byte.x7b :: rest) as [rest Hrest].
  { unfold document. cbn [iterencode iterencode_dict].
    rewrite gen_seq_yield. cbn [fst encode_chunks].
    change (utf8_encode (lit "{")) with (Some [Byte.x7b]).
    clear. match goal with |- context [encode_chunks ?x] =>
      destruct (encode_chunks x) as [bs e] end. by eexists. }
  destruct (encode_chunks _) as [bs [e|]]; cbn [fst snd] in *;
    eexists _, _, bs, rest, k; repeat split; done.
Qed.

(** C8. On the table [todos] with the columns [id], [title], [done] and the
    two rows of the scenario, the document has [row_count] 2 and the two
    records of the scenario as [data], and the script writes the text of
    the scenario. *)
Theorem C8_todos_scenario float_repr o :
  ∃ s0 s result bytes,
    assemble (start todos_db o true) = (s0, Returned result) ∧
    dict_get result (lit "row_count") = Some (Scalar (VInt 2)) ∧
    dict_get result (lit "data") = Some (PList todos_data) ∧
    run float_repr todos_db o true = (s, Returned ()) ∧
    out_file s = Some bytes ∧
    utf8_encode todos_json = Some bytes.
Proof.
  eexists _, _, _, _.
  split; [vm_compute; reflexivity|].
  split; [vm_compute; reflexivity|].
  split; [vm_compute; reflexivity|].
  split; [vm_compute; reflexivity|].
  split; vm_compute; reflexivity.
Qed.

(** ** Failures *)



(** C3, as the script has it.  With no file at the database path, what
    happens depends on whether one can be created there.  If it can,
    connecting creates an empty database and the script fails on line 12,
    at the read of the rows, with [OperationalError].  If it cannot, the
    script fails on line 4, at the acquisition of the connection, with
    [OperationalError], and no connection exists.  In both cases the output
    path is left as it was. *)
Theorem C3_missing_database float_repr o w :
  (∃ s,
     run float_repr Absent o w =
       (s, Raised 12 (OperationalError "no such table: todos")) ∧
     step_of_line 12 = ReadRows ∧
     db s = Database [] ∧
     out_file s = o) ∧
  (∃ s,
     run float_repr Inaccessible o w =
       (s, Raised 4 (OperationalError "unable to open database file")) ∧
     step_of_line 4 = AcquireConnection ∧
     conn s = NoConnection ∧
     db s = Inaccessible ∧
     out_file s = o).
Proof. split; eexists; by rewrite run_spec. Qed.

(** C3, as stated, fails: with no database file the script does not fail at
    the step that acquires the connection. *)
Lemma C3_counterexample :
  ¬ ∃ s line e,
      run any_repr Absent None true = (s, Raised line e) ∧
      step_of_line line = AcquireConnection.
Proof.
  intros (s & line & e & Hrun & Hstep).
  vm_compute in Hrun. by simplify_eq.
Qed.

(** C4, as the script has it.  With a database that has no table [todos],
    the read of the column metadata succeeds with no columns; the script
    fails on line 12, at the read of the rows, with [OperationalError], and
    the output path is left as it was. *)
Theorem C4_missing_table_fails_at_select float_repr tables o w :
  find_table "todos" tables = None →
  ∃ s,
    run float_repr (Database tables) o w =
      (s, Raised 12 (OperationalError "no such table: todos")) ∧
    step_of_line 12 = ReadRows ∧
    out_file s = o.
Proof. intros Htb. eexists. rewrite run_spec. cbn. by rewrite Htb. Qed.

(** C4, as stated, fails: on a database without the table the script does
    not fail at the step that reads the column metadata. *)
Lemma C4_counterexample :
  ¬ ∃ s line e,
      run any_repr (Database []) None true = (s, Raised line e) ∧
      step_of_line line = ReadColumnMetadata.
Proof.
  intros (s & line & e & Hrun & Hstep).
  vm_compute in Hrun. by simplify_eq.
Qed.


(** ** Tables that export *)

Lemma has_blob_columns columns :
  existsb has_blob (map (λ c, Scalar (VText c)) columns) = false.
Proof. by induction columns. Qed.

Lemma has_blob_document columns n data :
  has_blob (PDict (document columns n data)) = existsb has_blob data.
Proof.
  rewrite has_blob_dict. cbn [document existsb snd has_blob].
  rewrite has_blob_columns. cbn. by rewrite orb_false_r.
Qed.

Lemma clean_document float_repr columns n data :
  Forall (λ c, encodable c = true) columns →
  clean float_repr (PDict (document columns n data)) =
  forallb (clean float_repr) data.
Proof.
  intros Hcols. rewrite clean_dict. cbn [document forallb fst snd clean].
  rewrite clean_columns, !encodable_lit by done. cbn. by rewrite andb_true_r.
Qed.

Lemma has_blob_record columns : ∀ row,
  length row = length columns →
  has_blob (PDict (record_of columns row)) = existsb is_blob row.
Proof.
  unfold record_of.
  induction columns as [|c columns IH]; intros [|v row] Hlen; try done.
  rewrite has_blob_dict in *. cbn. rewrite <- IH by (cbn in Hlen; lia).
  rewrite has_blob_dict. by destruct v.
Qed.

Lemma clean_record float_repr columns : ∀ row,
  Forall (λ c, encodable c = true) columns →
  Forall (λ v, clean float_repr (Scalar v) = true) row →
  clean float_repr (PDict (record_of columns row)) = true.
Proof.
  unfold record_of.
  induction columns as [|c columns IH]; intros [|v row] Hc Hrow; try done.
  apply Forall_cons in Hc as [Hc Hcols], Hrow as [Hv Hrow].
  rewrite clean_dict. cbn [map zip zip_with forallb fst snd].
  rewrite Hc, Hv. cbn. rewrite <- clean_dict. by apply IH.
Qed.

(** A blob cell of a well-formed table is in the document. *)
Lemma blob_cell_in_document columns rows n row :
  Forall (λ row, length row = length columns) rows →
  row ∈ rows → existsb is_blob row = true →
  has_blob (PDict (document columns n (map PDict (map (record_of columns) rows))))
  = true.
Proof.
  intros Hrows Hrow Hblob. rewrite has_blob_document.
  apply existsb_exists. exists (PDict (record_of columns row)). split.
  - apply in_map, in_map. by apply list_elem_of_In.
  - rewrite has_blob_record; [done|].
    rewrite Forall_forall in Hrows. by apply Hrows.
Qed.

(** X10. An exportable table is exported: the script returns, the file
    holds the text of the document, the confirmation is printed and the
    connection is closed. *)
Theorem export_succeeds float_repr tables tb o :
  find_table "todos" tables = Some tb →
  exportable float_repr tb →
  let columns := map ci_name (tbl_columns tb) in
  let data := map PDict (map (record_of columns) (tbl_rows tb)) in
  ∃ bytes,
    run float_repr (Database tables) o true =
      (State (Database tables) (Some bytes) true ConnClosed NoResult false
         [saved_message], Returned ()) ∧
    utf8_encode
      (document_text float_repr columns (Z.of_nat (length (tbl_rows tb))) data)
      = Some bytes.
Proof.
  intros Htb (Hnd & Hlen & Hcols & Hcells) columns data.
  rewrite (run_table _ _ _ _ _ Htb Hnd Hlen). fold columns. fold data.
  set (n := Z.of_nat (length (tbl_rows tb))).
  assert (Forall (λ c, encodable c = true) columns) as Hcolumns.
  { subst columns. by apply Forall_map. }
  destruct (iterencode_ok float_repr (PDict (document columns n data)) 0)
    as (He & Ht & Hc).
  assert (has_blob (PDict (document columns n data)) = false) as Hb.
  { rewrite has_blob_document. apply not_true_is_false.
    intros (x & Hx & Hbx)%existsb_exists. subst data.
    apply in_map_iff in Hx as (r & <- & Hr).
    apply in_map_iff in Hr as (row & <- & Hrow).
    apply list_elem_of_In in Hrow.
    rewrite Forall_forall in Hlen, Hcells.
    rewrite has_blob_record in Hbx.
    2:{ subst columns. rewrite length_map. by apply Hlen. }
    apply existsb_exists in Hbx as (v & Hv & Hbv).
    specialize (Hcells row Hrow). rewrite Forall_forall in Hcells.
    apply list_elem_of_In in Hv. destruct (Hcells v Hv). congruence. }
  assert (clean float_repr (PDict (document columns n data)) = true) as Hcl.
  { rewrite clean_document by done. apply forallb_forall. intros x Hx.
    subst data. apply in_map_iff in Hx as (r & <- & Hr).
    apply in_map_iff in Hr as (row & <- & Hrow).
    apply list_elem_of_In in Hrow. rewrite Forall_forall in Hcells.
    apply clean_record; [done|].
    eapply Forall_impl; [exact (Hcells row Hrow)|]. by intros v [_ ?]. }
  rewrite Hb in He. specialize (Ht Hb). specialize (Hc Hcl).
  unfold emit_result. rewrite encode_chunks_encodable, He by done.
  eexists. split; [reflexivity|].
  rewrite <- document_text_pretty, <- Ht.
  by apply encode_chunks_concat, encode_chunks_encodable.
Qed.

(** ** The theorems at concrete inputs *)

Lemma C1_document_invariant_witness :
  ∃ s result (data : list dict),
    assemble (start todos_db None true) = (s, Returned result) ∧
    dict_get result (lit "columns") =
      Some (PList (map (λ c, Scalar (VText c)) (map ci_name todos_columns))) ∧
    dict_get result (lit "row_count") =
      Some (Scalar (VInt (Z.of_nat (length data)))) ∧
    dict_get result (lit "data") = Some (PList (map PDict data)) ∧
    length data = length todos_rows ∧
    Forall (λ record, keys record = map ci_name todos_columns) data.
Proof.
  apply (C1_document_invariant
           [("todos"%string, Table todos_columns todos_rows)]
           (Table todos_columns todos_rows) None true).
  - reflexivity.
  - apply (bool_decide_unpack _). vm_compute. reflexivity.
  - repeat constructor.
Defined.

Lemma C9_columns_order_values_unchanged_witness :
  let rows := [ [VInt 1; VText (lit "Buy milk"); VInt 0; VNull] ] in
  ∃ s result (data : list dict),
    assemble (start long_db None true) = (s, Returned result) ∧
    dict_get result (lit "columns") =
      Some (PList (map (λ c, Scalar (VText c)) (map ci_name todos_columns))) ∧
    dict_get result (lit "data") = Some (PList (map PDict data)) ∧
    length data = length rows ∧
    ∀ j row record i c v,
      rows !! j = Some row → data !! j = Some record →
      todos_columns !! i = Some c → row !! i = Some v →
      dict_get record (ci_name c) = Some (Scalar v).
Proof.
  apply (C9_columns_order_values_unchanged
           [("todos"%string,
             Table todos_columns [ [VInt 1; VText (lit "Buy milk"); VInt 0; VNull] ])]
           (Table todos_columns [ [VInt 1; VText (lit "Buy milk"); VInt 0; VNull] ])
           None true).
  - reflexivity.
  - apply (bool_decide_unpack _). vm_compute. reflexivity.
  - repeat constructor.
Defined.

Lemma C5_empty_table_witness :
  ∃ s0 s result bytes,
    assemble (start empty_db (Some [Byte.x00]) true) = (s0, Returned result) ∧
    dict_get result (lit "row_count") = Some (Scalar (VInt 0)) ∧
    dict_get result (lit "data") = Some (PList []) ∧
    run any_repr empty_db (Some [Byte.x00]) true = (s, Returned ()) ∧
    out_file s = Some bytes ∧
    utf8_encode (document_text any_repr (map ci_name todos_columns) 0 [])
      = Some bytes.
Proof.
  apply (C5_empty_table any_repr
           [("todos"%string, Table todos_columns [])]
           (Table todos_columns []) (Some [Byte.x00])).
  - reflexivity.
  - reflexivity.
  - repeat constructor.
Defined.

Lemma C6_deterministic_witness :
  out_file (run any_repr todos_db None true).1 =
  out_file (run any_repr todos_db (Some [Byte.x00]) true).1.
Proof.
  apply (C6_deterministic any_repr todos_db None (Some [Byte.x00]) true true).
  - vm_compute. reflexivity.
  - vm_compute. reflexivity.
Defined.

Lemma C7_output_format_witness :
  ∃ s0 columns n data bytes,
    assemble (start todos_db (Some [Byte.x00]) true)
      = (s0, Returned (document columns n data)) ∧
    keys (document columns n data) =
      [lit "table"; lit "columns"; lit "row_count"; lit "data"] ∧
    out_file (run any_repr todos_db (Some [Byte.x00]) true).1 = Some bytes ∧
    utf8_encode (document_text any_repr columns n data) = Some bytes ∧
    (∀ level x, has_blob x = false →
       text_of (iterencode any_repr x level) = pretty any_repr x level) ∧
    (∀ level, indent_str level = replicate (2 * level) 32) ∧
    (∀ c, 0x80 ≤ c → escape_char c = [c]) ∧
    (∀ t, Forall (λ c, 32 ≤ c ∧ c ≠ 34 ∧ c ≠ 92) t →
       encode_basestring t = QUOTE ++ t ++ QUOTE).
Proof.
  apply (C7_output_format any_repr todos_db (Some [Byte.x00]) true).
  vm_compute. reflexivity.
Defined.

Lemma C10_blob_leaves_partial_file_witness :
  has_blob (PDict blob_result) = true ∧
  ∃ s e partial rest k,
    run any_repr blob_db (Some [Byte.x00]) true = (s, Raised 30 e) ∧
    step_of_line 30 = SerializeAndWrite ∧
    (iterencode any_repr (PDict blob_result) 0).2 = Some TypeError ∧
    out_file s = Some partial ∧
    partial = (encode_chunks (iterencode any_repr (PDict blob_result) 0).1).1 ∧
    partial = Byte.x7b :: rest ∧
    utf8_encode (concat (take k (iterencode any_repr (PDict blob_result) 0).1))
      = Some partial ∧
    f_open s = false.
Proof.
  split; [reflexivity|].
  apply (C10_blob_leaves_partial_file any_repr blob_db (Some [Byte.x00])
           (assemble (start blob_db (Some [Byte.x00]) true)).1 blob_result).
  - vm_compute. reflexivity.
  - reflexivity.
Defined.

Lemma C4_missing_table_fails_at_select_witness :
  ∃ s,
    run any_repr (Database []) None true =
      (s, Raised 12 (OperationalError "no such table: todos")) ∧
    step_of_line 12 = ReadRows ∧
    out_file s = None.
Proof.
  apply (C4_missing_table_fails_at_select any_repr [] None true).
  reflexivity.
Defined.


(** * Further properties of the script *)

(** ** Rows shorter and longer than the column list *)

Lemma fill_item_raises l : ∀ row item e,
  fill_item l row item = inl e → e = IndexError.
Proof.
  induction l as [|[i col] l IH]; intros row item e; [done|].
  cbn. destruct (row !! i); [apply IH|by intros [= <-]].
Qed.

Lemma fill_item_short cs : ∀ n row item,
  (n ≤ length row)%nat → (length row < n + length cs)%nat →
  fill_item (zip (seq n (length cs)) cs) row item = inl IndexError.
Proof.
  induction cs as [|c cs IH]; intros n row item Hn Hlen; [cbn in Hlen; lia|].
  cbn [length seq zip zip_with fill_item] in *.
  destruct (row !! n) as [v|] eqn:Hv; [|done].
  apply lookup_lt_Some in Hv. apply IH; lia.
Qed.

Lemma records_of_raises columns rows e :
  records_of columns rows = inl e → e = IndexError.
Proof.
  induction rows as [|row rows IH]; [done|]. cbn.
  destruct (fill_item (enumerate columns) row []) as [e'|item] eqn:Hf.
  - intros [= <-]. by eapply fill_item_raises.
  - destruct (records_of columns rows); [|done]. intros [= <-]. by apply IH.
Qed.

Lemma records_of_short columns rows :
  Exists (λ row, (length row < length columns)%nat) rows →
  records_of columns rows = inl IndexError.
Proof.
  induction 1 as [row rows Hrow|row rows _ IH]; cbn.
  - unfold enumerate. rewrite fill_item_short; [done|lia|lia].
  - destruct (fill_item (enumerate columns) row []) as [e|item] eqn:Hf.
    + by rewrite (fill_item_raises _ _ _ _ Hf).
    + by rewrite IH.
Qed.

(** X1. A row with fewer values than the table has columns ends the script
    on line 26 with [IndexError]: the output file is left as it was, nothing
    is printed and the connection stays open. *)
Theorem short_row_raises_index_error float_repr tables tb o w :
  find_table "todos" tables = Some tb →
  Exists (λ row, (length row < length (tbl_columns tb))%nat) (tbl_rows tb) →
  ∃ s,
    run float_repr (Database tables) o w = (s, Raised 26 IndexError) ∧
    out_file s = o ∧ stdout s = [] ∧ conn s = ConnOpen.
Proof.
  intros Htb Hshort. rewrite run_spec. cbn [assemble_result]. rewrite Htb.
  rewrite records_of_short; [by eexists|].
  eapply Exists_impl; [exact Hshort|]. intros row Hrow. cbn in Hrow.
  unfold info_1. by rewrite length_map.
Qed.

(** X2. Values of a row beyond the last column are ignored: with distinct
    column names and rows at least as long as the column list, every record
    is the column names zipped with the first values of its row, so it has
    exactly the columns as keys and as many entries as there are columns. *)
Theorem extra_values_ignored tables tb o w :
  find_table "todos" tables = Some tb →
  NoDup (map ci_name (tbl_columns tb)) →
  Forall (λ row, (length (tbl_columns tb) ≤ length row)%nat) (tbl_rows tb) →
  let columns := map ci_name (tbl_columns tb) in
  ∃ s,
    assemble (start (Database tables) o w) =
      (s, Returned (document columns (Z.of_nat (length (tbl_rows tb)))
                      (map PDict (map (record_of columns) (tbl_rows tb))))) ∧
    Forall (λ row, keys (record_of columns row) = columns ∧
                   record_of columns row =
                     record_of columns (take (length columns) row))
      (tbl_rows tb).
Proof.
  intros Htb Hnd Hrows columns.
  rewrite assemble_start. cbn [assemble_result]. rewrite Htb.
  change (map info_1 (tbl_columns tb)) with columns.
  assert (Forall (λ row, (length columns ≤ length row)%nat) (tbl_rows tb)) as Hlen.
  { eapply Forall_impl; [exact Hrows|]. intros row Hrow. cbn in Hrow.
    subst columns. by rewrite length_map. }
  rewrite records_of_long by done.
  eexists. split; [reflexivity|].
  eapply Forall_impl; [exact Hlen|]. intros row Hrow. cbn in Hrow. split.
  - unfold keys, record_of. apply (fst_zip columns (map Scalar row)).
    rewrite length_map. lia.
  - unfold record_of. rewrite <- firstn_map.
    symmetry. apply zip_with_take_r'. lia.
Qed.

(** ** Column names that occur more than once *)

Lemma dict_get_setitem d k v k' :
  dict_get (dict_setitem d k v) k' =
  if decide (k' = k) then Some v else dict_get d k'.
Proof.
  induction d as [|[k0 v0] d IH]; cbn.
  - by destruct (decide (k' = k)).
  - destruct (decide (k = k0)) as [->|Hne]; cbn.
    + by destruct (decide (k' = k0)).
    + destruct (decide (k' = k0)) as [->|Hne'].
      * by rewrite decide_False.
      * exact IH.
Qed.

Lemma keys_setitem d k v :
  keys (dict_setitem d k v) = if decide (k ∈ keys d) then keys d else keys d ++ [k].
Proof.
  unfold keys. induction d as [|[k0 v0] d IH]; [done|]. cbn.
  destruct (decide (k = k0)) as [->|Hne]; cbn.
  - rewrite decide_True; [done|by left].
  - rewrite IH. destruct (decide (k ∈ map fst d)) as [Hin|Hnin].
    + rewrite decide_True; [done|by right].
    + rewrite decide_False; [done|]. by intros [?|?]%elem_of_cons.
Qed.

Lemma keys_setitem_NoDup d k v :
  NoDup (keys d) → NoDup (keys (dict_setitem d k v)).
Proof.
  intros Hnd. rewrite keys_setitem. case_decide; [done|].
  apply NoDup_app. split; [done|]. split; [|apply NoDup_singleton].
  by intros x Hx ->%list_elem_of_singleton.
Qed.

Lemma elem_of_keys_setitem d k v x :
  x ∈ keys (dict_setitem d k v) ↔ x ∈ keys d ∨ x = k.
Proof.
  rewrite keys_setitem. case_decide.
  - split; [by left|]. by intros [?| ->].
  - rewrite elem_of_app, list_elem_of_singleton. tauto.
Qed.

Lemma fill_item_keys l : ∀ row item item',
  fill_item l row item = inr item' →
  NoDup (keys item) →
  NoDup (keys item') ∧ ∀ x, x ∈ keys item' ↔ x ∈ keys item ∨ x ∈ l.*2.
Proof.
  induction l as [|[i col] l IH]; intros row item item'.
  - intros [= <-] Hnd. split; [done|]. intros x. cbn. rewrite elem_of_nil. tauto.
  - cbn. destruct (row !! i) as [v|]; [|done]. intros Hf Hnd.
    destruct (IH _ _ _ Hf (keys_setitem_NoDup _ col (Scalar v) Hnd)) as [Hnd' Hin].
    split; [done|]. intros x.
    rewrite Hin, elem_of_keys_setitem, elem_of_cons. tauto.
Qed.

Lemma fill_item_get_other l : ∀ row item item' c,
  fill_item l row item = inr item' → c ∉ l.*2 →
  dict_get item' c = dict_get item c.
Proof.
  induction l as [|[i col] l IH]; intros row item item' c.
  - by intros [= <-].
  - cbn. destruct (row !! i) as [v|]; [|done]. intros Hf Hc.
    apply not_elem_of_cons in Hc as [Hne Hc].
    rewrite (IH _ _ _ _ Hf Hc), dict_get_setitem. by rewrite decide_False.
Qed.

Lemma fill_item_get_last l : ∀ row item item' p i c v,
  fill_item l row item = inr item' →
  l !! p = Some (i, c) →
  (∀ q j, (p < q)%nat → l !! q ≠ Some (j, c)) →
  row !! i = Some v →
  dict_get item' c = Some (Scalar v).
Proof.
  induction l as [|[i0 c0] l IH]; intros row item item' p i c v; [done|].
  cbn [fill_item]. destruct (row !! i0) as [v0|] eqn:Hv0; [|done].
  intros Hf Hp Hlast Hv. destruct p as [|p]; simplify_eq/=.
  - rewrite (fill_item_get_other _ _ _ _ _ Hf).
    + rewrite dict_get_setitem. by rewrite decide_True.
    + intros Hin. apply list_elem_of_fmap in Hin as ([j c'] & -> & Hin).
      apply list_elem_of_lookup in Hin as [q Hq].
      by apply (Hlast (S q) j ltac:(lia)).
  - eapply IH; [done|done| |done].
    intros q j Hq. apply (Hlast (S q) j). lia.
Qed.

Lemma enumerate_lookup {A} (l : list A) p :
  enumerate l !! p = (λ x, (p, x)) <$> l !! p.
Proof.
  unfold enumerate. rewrite lookup_zip_with.
  destruct (l !! p) as [x|] eqn:Hx.
  - rewrite lookup_seq_lt by (by eapply lookup_lt_Some). done.
  - by destruct (seq 0 (length l) !! p).
Qed.

(** X3. Whatever the column names, a record holds every name once: its keys
    have no duplicate and are exactly the names that occur in the column
    list.  Under a name that occurs more than once the record holds the
    value of the last column of that name. *)
Theorem record_keys_unique_last_value_wins columns row item :
  fill_item (enumerate columns) row [] = inr item →
  NoDup (keys item) ∧
  (∀ x, x ∈ keys item ↔ x ∈ columns) ∧
  (∀ i c v,
     columns !! i = Some c →
     (∀ j, (i < j)%nat → columns !! j ≠ Some c) →
     row !! i = Some v →
     dict_get item c = Some (Scalar v)).
Proof.
  intros Hf.
  destruct (fill_item_keys _ _ _ _ Hf (NoDup_nil_2 (A:=str))) as [Hnd Hin].
  split; [done|]. split.
  - intros x. rewrite Hin. unfold enumerate.
    rewrite snd_zip by (rewrite length_seq; lia).
    cbn. rewrite elem_of_nil. tauto.
  - intros i c v Hc Hlast Hv.
    eapply (fill_item_get_last _ _ _ _ i i c v Hf); [|  |done].
    + by rewrite enumerate_lookup, Hc.
    + intros q j Hq. rewrite enumerate_lookup.
      destruct (columns !! q) as [c'|] eqn:Hc'; [|done].
      cbn. intros [= <- <-]. by apply (Hlast q).
Qed.

(** ** Where the script can fail, and when it returns *)

Lemma fill_item_total cs : ∀ n row item,
  (n + length cs ≤ length row)%nat →
  ∃ item', fill_item (zip (seq n (length cs)) cs) row item = inr item'.
Proof.
  induction cs as [|c cs IH]; intros n row item Hlen; [by eexists|].
  cbn [length seq zip zip_with fill_item] in *.
  destruct (lookup_lt_is_Some_2 row n) as [v ->]; [lia|].
  apply IH. lia.
Qed.

Lemma records_of_total columns rows :
  Forall (λ row, (length columns ≤ length row)%nat) rows →
  ∃ items, records_of columns rows = inr items.
Proof.
  induction 1 as [|row rows Hrow _ [items IH]]; [by eexists|]. cbn.
  destruct (fill_item_total columns 0 row []) as [item Hitem]; [cbn; lia|].
  unfold enumerate. rewrite Hitem, IH. by eexists.
Qed.

Lemma records_of_inl_short columns rows e :
  records_of columns rows = inl e →
  Exists (λ row, (length row < length columns)%nat) rows.
Proof.
  intros He.
  destruct (decide (Forall (λ row, (length columns ≤ length row)%nat) rows))
    as [Hall|Hnot].
  - destruct (records_of_total _ _ Hall) as [items Hitems]. congruence.
  - apply not_Forall_Exists in Hnot; [|apply _].
    eapply Exists_impl; [exact Hnot|]. intros row Hrow. cbn in Hrow. lia.
Qed.

Lemma records_of_inr_long columns rows items :
  records_of columns rows = inr items →
  Forall (λ row, (length columns ≤ length row)%nat) rows.
Proof.
  intros Hitems. apply Forall_forall. intros row Hrow.
  destruct (decide (length columns ≤ length row)%nat) as [|Hshort]; [done|].
  rewrite records_of_short in Hitems; [done|].
  apply Exists_exists. exists row. split; [done|lia].
Qed.

(** X4. A failure in the loop of lines 23 to 27 is an [IndexError] on line
    26, and it means that a row of [todos] has fewer values than the table
    has columns; line 27 never fails. *)
Theorem loop_failure_means_short_row float_repr d o w s line e :
  run float_repr d o w = (s, Raised line e) →
  (23 ≤ line ≤ 27)%nat →
  line = 26%nat ∧ e = IndexError ∧
  ∃ tables tb,
    d = Database tables ∧ find_table "todos" tables = Some tb ∧
    Exists (λ row, (length row < length (tbl_columns tb))%nat) (tbl_rows tb).
Proof.
  rewrite run_spec.
  destruct (assemble_result d) as [[d' c] [result|l e']] eqn:Hd.
  - unfold emit_result. destruct w.
    + destruct (encode_chunks _) as [bs [e1|]]; cbn [fst snd].
      * intros [= <- <- <-]. lia.
      * destruct (iterencode float_repr (PDict result) 0) as [chunks [e2|]];
          [|done]. intros [= <- <- <-]. lia.
    + intros [= <- <- <-]. lia.
  - intros [= <- <- <-] Hline.
    destruct d as [| | |tables|tables]; simplify_eq/=; try lia.
    2:{ destruct (find_table "todos" tables); simplify_eq/=; lia. }
    destruct (find_table "todos" tables) as [tb|] eqn:Htb; simplify_eq/=;
      [|lia].
    destruct (records_of _ _) as [e1|items] eqn:Hr; simplify_eq/=.
    split; [done|]. split; [by eapply records_of_raises|].
    eexists _, _. split; [done|]. split; [done|].
    apply records_of_inl_short in Hr.
    eapply Exists_impl; [exact Hr|]. intros row Hrow. cbn in Hrow.
    unfold info_1 in Hrow. by rewrite length_map in Hrow.
Qed.

(** X5. Unless the script gets as far as [json.dump] on line 30, the file
    at the output path is left as it was and nothing is printed. *)
Theorem output_untouched_before_dump float_repr d o w s line e :
  run float_repr d o w = (s, Raised line e) →
  line ≠ 30%nat →
  out_file s = o ∧ stdout s = [].
Proof.
  rewrite run_spec.
  destruct (assemble_result d) as [[d' c] [result|l e']] eqn:Hd.
  - unfold emit_result. destruct w.
    + destruct (encode_chunks _) as [bs [e1|]]; cbn [fst snd].
      * by intros [= <- <- <-].
      * destruct (iterencode float_repr (PDict result) 0) as [chunks [e2|]];
          [|done]. by intros [= <- <- <-].
    + by intros [= <- <- <-].
  - by intros [= <- <- <-].
Qed.

(** X6. The confirmation is printed exactly when the script returns, and
    then it is the only line printed; a failing run prints nothing. *)
Theorem confirmation_iff_returned float_repr d o w :
  let '(s, r) := run float_repr d o w in
  stdout s =
    match r with
    | Returned _ => [lit "Data saved to todos_data.json"]
    | Raised _ _ => []
    end.
Proof.
  rewrite run_spec.
  destruct (assemble_result d) as [[d' c] [result|l e']] eqn:Hd; [|done].
  unfold emit_result. destruct w; [|done].
  destruct (encode_chunks _) as [bs [e1|]]; cbn [fst snd]; [done|].
  by destruct (iterencode float_repr (PDict result) 0) as [chunks [e2|]].
Qed.

(** X7. The handle of the output file is closed at the end of every run,
    also when [json.dump] raises inside the [with] block. *)
Theorem output_handle_always_closed float_repr d o w :
  f_open (run float_repr d o w).1 = false.
Proof.
  rewrite run_spec.
  destruct (assemble_result d) as [[d' c] [result|l e']] eqn:Hd; [|done].
  unfold emit_result. destruct w; [|done].
  destruct (encode_chunks _) as [bs [e1|]]; cbn [fst snd]; [done|].
  by destruct (iterencode float_repr (PDict result) 0) as [chunks [e2|]].
Qed.

(** X9. The script returns only when the output file can be opened, the
    database has the table, and every row has at least as many values as
    there are columns; the connection is closed then. *)
Theorem returns_only_if float_repr d o w s :
  run float_repr d o w = (s, Returned ()) →
  w = true ∧ conn s = ConnClosed ∧
  ∃ tables tb,
    d = Database tables ∧ find_table "todos" tables = Some tb ∧
    Forall (λ row, (length (tbl_columns tb) ≤ length row)%nat) (tbl_rows tb).
Proof.
  intros Hrun.
  destruct (run_returned _ _ _ _ _ Hrun) as (d' & result & bytes & Hd & -> & _ & _ & ->).
  split; [done|]. split; [done|].
  destruct (assemble_result_returned _ _ _ _ Hd)
    as (_ & _ & tables & tb & items & -> & Htb & Hr & _).
  eexists _, _. split; [done|]. split; [done|].
  apply records_of_inr_long in Hr.
  eapply Forall_impl; [exact Hr|]. intros row Hrow. cbn in Hrow.
  unfold info_1 in Hrow. by rewrite length_map in Hrow.
Qed.


(** ** Blob cells, and what the export depends on *)

(** X11. A blob cell stops the export: for a table with distinct column
    names, one value per column in every row, encodable strings and a blob
    in some row, the script fails on line 30 with [TypeError], after the
    output file was opened; the connection stays open and nothing is
    printed. *)
Theorem blob_cell_raises_type_error float_repr tables tb o row :
  find_table "todos" tables = Some tb →
  NoDup (map ci_name (tbl_columns tb)) →
  Forall (λ row, length row = length (tbl_columns tb)) (tbl_rows tb) →
  Forall (λ c, encodable (ci_name c) = true) (tbl_columns tb) →
  Forall (Forall (λ v, clean float_repr (Scalar v) = true)) (tbl_rows tb) →
  row ∈ tbl_rows tb → existsb is_blob row = true →
  ∃ s,
    run float_repr (Database tables) o true = (s, Raised 30 TypeError) ∧
    is_Some (out_file s) ∧ conn s = ConnOpen ∧ stdout s = [].
Proof.
  intros Htb Hnd Hlen Hcols Hcells Hrow Hblob.
  rewrite (run_table _ _ _ _ _ Htb Hnd Hlen).
  set (columns := map ci_name (tbl_columns tb)).
  set (data := map PDict (map (record_of columns) (tbl_rows tb))).
  set (n := Z.of_nat (length (tbl_rows tb))).
  assert (Forall (λ c, encodable c = true) columns) as Hcolumns.
  { subst columns. by apply Forall_map. }
  destruct (iterencode_ok float_repr (PDict (document columns n data)) 0)
    as (He & _ & Hc).
  assert (has_blob (PDict (document columns n data)) = true) as Hb.
  { apply (blob_cell_in_document columns (tbl_rows tb) n row); [|done|done].
    eapply Forall_impl; [exact Hlen|]. intros r Hr. cbn in Hr.
    subst columns. by rewrite length_map. }
  assert (clean float_repr (PDict (document columns n data)) = true) as Hcl.
  { rewrite clean_document by done. apply forallb_forall. intros x Hx.
    subst data. apply in_map_iff in Hx as (r & <- & Hr).
    apply in_map_iff in Hr as (row' & <- & Hrow').
    apply list_elem_of_In in Hrow'. rewrite Forall_forall in Hcells.
    apply clean_record; [done|]. by apply Hcells. }
  rewrite Hb in He. specialize (Hc Hcl).
  unfold emit_result. rewrite encode_chunks_encodable, He by done.
  eexists. split; [reflexivity|]. cbn. eauto.
Qed.

(** X12. The export depends on the names of the columns of [todos] and on
    its rows only: declared types, constraints, defaults and other tables
    of the database change neither the outcome nor the file nor what is
    printed. *)
Theorem only_names_and_rows_matter float_repr tables1 tables2 tb1 tb2 o w :
  find_table "todos" tables1 = Some tb1 →
  find_table "todos" tables2 = Some tb2 →
  map ci_name (tbl_columns tb1) = map ci_name (tbl_columns tb2) →
  tbl_rows tb1 = tbl_rows tb2 →
  (run float_repr (Database tables1) o w).2 =
    (run float_repr (Database tables2) o w).2 ∧
  out_file (run float_repr (Database tables1) o w).1 =
    out_file (run float_repr (Database tables2) o w).1 ∧
  stdout (run float_repr (Database tables1) o w).1 =
    stdout (run float_repr (Database tables2) o w).1.
Proof.
  intros Htb1 Htb2 Hnames Hrows. rewrite !run_spec. cbn [assemble_result].
  rewrite Htb1, Htb2.
  change (map info_1 (tbl_columns tb1)) with (map ci_name (tbl_columns tb1)).
  change (map info_1 (tbl_columns tb2)) with (map ci_name (tbl_columns tb2)).
  rewrite Hnames, Hrows.
  destruct (records_of _ _) as [e|items]; [done|].
  unfold emit_result. destruct w; [|done].
  destruct (encode_chunks _) as [bs [e1|]]; cbn [fst snd]; [done|].
  by destruct (iterencode float_repr _ 0) as [chunks [e2|]].
Qed.

(** X13. A string is written on one line between two double quotes: its
    encoding starts and ends with a double quote and holds no control
    character, whatever the string. *)
Theorem encoded_string_has_no_control_character s :
  Forall (λ c, 32 ≤ c) (encode_basestring s) ∧
  head (encode_basestring s) = Some 34 ∧
  last (encode_basestring s) = Some 34.
Proof.
  unfold encode_basestring, QUOTE. split; [|split].
  - apply Forall_app. split; [by repeat constructor|].
    apply Forall_app. split; [|by repeat constructor].
    apply Forall_concat, Forall_map, Forall_forall. intros c _. cbn.
    unfold escape_char.
    repeat (case_match;
            [repeat first [apply Forall_nil | apply Forall_cons; split]; lia|]).
    case_match eqn:Hlt.
    + repeat first [apply Forall_nil | apply Forall_cons; split];
        unfold hex_digit; try case_match; try done;
        (eapply N.le_trans; [|apply N.le_add_r]); done.
    + apply N.ltb_ge in Hlt.
      repeat first [apply Forall_nil | apply Forall_cons; split]; done.
  - done.
  - by rewrite app_assoc, last_snoc.
Qed.

(** ** The further theorems at concrete inputs *)

Lemma short_row_raises_index_error_witness :
  ∃ s,
    run any_repr short_db None true = (s, Raised 26 IndexError) ∧
    out_file s = None ∧ stdout s = [] ∧ conn s = ConnOpen.
Proof.
  apply (short_row_raises_index_error any_repr _
           (Table todos_columns
              [ [VInt 1; VText (lit "Buy milk"); VInt 0];
                [VInt 2; VText (lit "Pay bills")] ]) None true).
  - reflexivity.
  - apply Exists_cons_tl, Exists_cons_hd. cbn. lia.
Defined.

Lemma extra_values_ignored_witness :
  let columns := map ci_name todos_columns in
  let rows := [ [VInt 1; VText (lit "Buy milk"); VInt 0; VNull] ] in
  ∃ s,
    assemble (start long_db None true) =
      (s, Returned (document columns 1 (map PDict (map (record_of columns) rows)))) ∧
    Forall (λ row, keys (record_of columns row) = columns ∧
                   record_of columns row =
                     record_of columns (take (length columns) row)) rows.
Proof.
  apply (extra_values_ignored _
           (Table todos_columns [ [VInt 1; VText (lit "Buy milk"); VInt 0; VNull] ])
           None true).
  - reflexivity.
  - apply (bool_decide_unpack _). vm_compute. reflexivity.
  - repeat constructor.
Defined.

Lemma record_keys_unique_last_value_wins_witness :
  NoDup (keys twice_item) ∧
  (∀ x, x ∈ keys twice_item ↔ x ∈ twice_columns) ∧
  (∀ i c v,
     twice_columns !! i = Some c →
     (∀ j, (i < j)%nat → twice_columns !! j ≠ Some c) →
     twice_row !! i = Some v →
     dict_get twice_item c = Some (Scalar v)).
Proof.
  apply (record_keys_unique_last_value_wins twice_columns twice_row twice_item).
  reflexivity.
Defined.

Lemma loop_failure_means_short_row_witness :
  26%nat = 26%nat ∧ IndexError = IndexError ∧
  ∃ tables tb,
    short_db = Database tables ∧ find_table "todos" tables = Some tb ∧
    Exists (λ row, (length row < length (tbl_columns tb))%nat) (tbl_rows tb).
Proof.
  apply (loop_failure_means_short_row any_repr short_db None true
           (run any_repr short_db None true).1 26 IndexError).
  - vm_compute. reflexivity.
  - lia.
Defined.

Lemma output_untouched_before_dump_witness :
  out_file (run any_repr todos_db (Some [Byte.x00]) false).1 = Some [Byte.x00] ∧
  stdout (run any_repr todos_db (Some [Byte.x00]) false).1 = [].
Proof.
  apply (output_untouched_before_dump any_repr todos_db (Some [Byte.x00]) false
           (run any_repr todos_db (Some [Byte.x00]) false).1 29 OSError).
  - vm_compute. reflexivity.
  - lia.
Defined.

Lemma returns_only_if_witness :
  let s := (run any_repr todos_db None true).1 in
  true = true ∧ conn s = ConnClosed ∧
  ∃ tables tb,
    todos_db = Database tables ∧ find_table "todos" tables = Some tb ∧
    Forall (λ row, (length (tbl_columns tb) ≤ length row)%nat) (tbl_rows tb).
Proof.
  apply (returns_only_if any_repr todos_db None true
           (run any_repr todos_db None true).1).
  vm_compute. reflexivity.
Defined.

Lemma export_succeeds_witness :
  let columns := map ci_name todos_columns in
  let data := map PDict (map (record_of columns) todos_rows) in
  ∃ bytes,
    run any_repr todos_db None true =
      (State todos_db (Some bytes) true ConnClosed NoResult false
         [saved_message], Returned ()) ∧
    utf8_encode (document_text any_repr columns 2 data) = Some bytes.
Proof.
  apply (export_succeeds any_repr
           [("todos"%string, Table todos_columns todos_rows)]
           (Table todos_columns todos_rows) None).
  - reflexivity.
  - split; [|split; [|split]].
    + apply (bool_decide_unpack _). vm_compute. reflexivity.
    + repeat constructor.
    + repeat constructor.
    + repeat constructor.
Defined.

Lemma blob_cell_raises_type_error_witness :
  ∃ s,
    run any_repr blob_db None true = (s, Raised 30 TypeError) ∧
    is_Some (out_file s) ∧ conn s = ConnOpen ∧ stdout s = [].
Proof.
  apply (blob_cell_raises_type_error any_repr _
           (Table todos_columns
              [ [VInt 1; VText (lit "Buy milk"); VInt 0];
                [VInt 2; VBlob [Byte.x00; Byte.xff]; VInt 1] ])
           None [VInt 2; VBlob [Byte.x00; Byte.xff]; VInt 1]).
  - reflexivity.
  - apply (bool_decide_unpack _). vm_compute. reflexivity.
  - repeat constructor.
  - repeat constructor.
  - repeat constructor.
  - apply list_elem_of_further, list_elem_of_here.
  - reflexivity.
Defined.

Lemma only_names_and_rows_matter_witness :
  (run any_repr todos_db None true).2 =
    (run any_repr (Database retyped_tables) None true).2 ∧
  out_file (run any_repr todos_db None true).1 =
    out_file (run any_repr (Database retyped_tables) None true).1 ∧
  stdout (run any_repr todos_db None true).1 =
    stdout (run any_repr (Database retyped_tables) None true).1.
Proof.
  apply (only_names_and_rows_matter any_repr
           [("todos"%string, Table todos_columns todos_rows)] retyped_tables
           (Table todos_columns todos_rows) (Table retyped_columns todos_rows)
           None true); reflexivity.
Defined.
